(** * AutoML2015/data/data_io.py: dataset inventory, sample loading, result copying

    A shallow embedding of the input/output helpers of the ChaLearn AutoML
    challenge code, and the properties of its inventory scanner, dataset
    validator, sample loaders and result copier.

    Conventions of the embedding.
    - Python [str] values are [string]s, compared by character code.
    - Code that prints, raises or exits runs in the monad [Py]: standard
      output is threaded as a list of printed lines, and a computation either
      returns a value or raises an exception ([exit(1)] raises [SystemExit 1]).
    - Calls into the operating system ([glob], [os.path.isfile],
      [os.path.join], [open], [shutil.copy2]) are fields of a platform record;
      the general theorems hold for every platform, the examples run on a
      small POSIX file-system model.
    - [float] is a parameter of the loaders together with Python's [float()]
      and [int()] conversions; the examples instantiate them with exact
      decimals. *)

From Stdlib Require Import ZArith QArith Ascii.
From Stdlib Require String.
From stdpp Require Import base option list sorting strings gmap.

Local Open Scope Z_scope.
Local Open Scope stdpp_scope.

(** ** Python string primitives *)

Module PyStr.

(** [s.index(c)] for a one-character [c]: position of the first occurrence,
    [None] where Python raises [ValueError]. *)
Fixpoint index (c : ascii) (s : string) : option nat :=
  match s with
  | EmptyString => None
  | String a s' => if decide (a = c) then Some 0%nat else S <$> index c s'
  end.

(** [s[::-1]]. *)
Definition rev (s : string) : string := String.rev s.

(** Normalisation of one bound of a slice over a sequence of length [len]:
    a negative bound counts from the end, and bounds are clamped. *)
Definition slice_bound (len i : Z) : Z :=
  if i <? 0 then Z.max 0 (len + i) else Z.min i len.

(** [s[start:stop]]. *)
Definition slice (s : string) (start stop : Z) : string :=
  let len := Z.of_nat (String.length s) in
  let lo := slice_bound len start in
  let hi := slice_bound len stop in
  String.substring (Z.to_nat lo) (Z.to_nat (hi - lo)) s.

Definition upper (a : ascii) : ascii :=
  let n := nat_of_ascii a in
  if (97 <=? n)%nat && (n <=? 122)%nat then ascii_of_nat (n - 32) else a.

Definition lower (a : ascii) : ascii :=
  let n := nat_of_ascii a in
  if (65 <=? n)%nat && (n <=? 90)%nat then ascii_of_nat (n + 32) else a.

Fixpoint map_chars (f : ascii → ascii) (s : string) : string :=
  match s with
  | EmptyString => EmptyString
  | String a s' => String (f a) (map_chars f s')
  end.

(** [s.capitalize()]: first character upper-cased, the rest lower-cased. *)
Definition capitalize (s : string) : string :=
  match s with
  | EmptyString => EmptyString
  | String a s' => String (upper a) (map_chars lower s')
  end.

End PyStr.

(** ** Exceptions, standard output and the [Py] monad *)

Inductive exn : Type :=
  | ValueError
  | IndexError
  | IOError
  | NameError
  | SystemExit (code : Z).

Inductive outcome (A : Type) : Type :=
  | Ret (a : A)
  | Raise (e : exn).
Arguments Ret {A} a.
Arguments Raise {A} e.

Definition stdout : Type := list string.

Definition Py (A : Type) : Type := stdout → outcome A * stdout.

Definition py_ret {A} (a : A) : Py A := λ out, (Ret a, out).

Definition py_bind {A B} (m : Py A) (k : A → Py B) : Py B :=
  λ out, match m out with
         | (Ret a, out') => k a out'
         | (Raise e, out') => (Raise e, out')
         end.

Notation "x ←' m ; k" := (py_bind m (λ x, k))
  (at level 20, m at level 100, k at level 200, only parsing) : stdpp_scope.
Notation "m ;;' k" := (py_bind m (λ _, k))
  (at level 100, k at level 200, right associativity, only parsing) : stdpp_scope.

Definition raise {A} (e : exn) : Py A := λ out, (Raise e, out).

(** [print(s)] *)
Definition print (s : string) : Py () := λ out, (Ret (), out ++ [s]).

(** [exit(code)] *)
Definition exit {A} (code : Z) : Py A := raise (SystemExit code).

(** [if c: body], a statement without [else]. *)
Definition when (c : bool) (body : Py ()) : Py () :=
  if c then body else py_ret ().

(** What a run returned, and what it printed. *)
Definition value {A} (r : outcome A * stdout) : outcome A := r.1.
Definition printed {A} (r : outcome A * stdout) : stdout := r.2.

(** ** The platform: operating-system calls used by the module *)

Record Platform : Type := {
  os_name : string;                       (* os.name *)
  path_join : string → string → string;   (* os.path.join *)
  glob : string → list string;            (* glob.glob, in enumeration order *)
  isfile : string → bool;                 (* os.path.isfile *)
  read : string → option string;          (* open(filename).read(), None: IOError *)
}.

(** ** Inventory of the input data *)

Section Inventory.
Variable P : Platform.

(** Module level: [filesep] is a backslash on "nt" and a slash elsewhere. *)
Definition filesep : ascii :=
  if decide (os_name P = "nt") then "\"%char else "/"%char.

(** The expression
    [name[-name[::-1].index(filesep):-name[::-1].index('_')-1]]
    shared by [inventory_data_nodir] and [inventory_data_dir]. *)
Definition name_from_path (name : string) : Py string :=
  match PyStr.index filesep (PyStr.rev name) with
  | None => raise ValueError
  | Some i =>
      match PyStr.index "_"%char (PyStr.rev name) with
      | None => raise ValueError
      | Some j => py_ret (PyStr.slice name (- Z.of_nat i) (- Z.of_nat j - 1))
      end
  end.

Definition check_dataset (dirname name : string) : Py bool :=
  let valid_file := path_join P dirname (name +:+ "_valid.data") in
  when (negb (isfile P valid_file))
       (print ("No validation file for " +:+ name);;' exit 1);;'
  let test_file := path_join P dirname (name +:+ "_test.data") in
  when (negb (isfile P test_file))
       (print ("No test file for " +:+ name);;' exit 1);;'
  let training_solution := path_join P dirname (name +:+ "_train.solution") in
  when (negb (isfile P training_solution))
       (print ("No training labels for " +:+ name);;' exit 1);;'
  py_ret true.

(** The loop [for i in range(0, len(training_names))] of both inventory
    functions: entry [i] is replaced by its decoded name, which is then
    checked in the directory [dir_of name]. *)
Fixpoint inventory_loop (dir_of : string → string) (training_names : list string)
  : Py (list string) :=
  match training_names with
  | [] => py_ret []
  | name :: rest =>
      n ←' name_from_path name;
      check_dataset (dir_of n) n;;'
      ns ←' inventory_loop dir_of rest;
      py_ret (n :: ns)
  end.

Definition inventory_data_nodir (input_dir : string) : Py (list string) :=
  let training_names := glob P (path_join P input_dir "*_train.data") in
  inventory_loop (λ _, input_dir) training_names.

Definition inventory_data_dir (input_dir : string) : Py (list string) :=
  let training_names := glob P (input_dir +:+ "/*/*_train.data") in
  inventory_loop (λ n, path_join P input_dir n) training_names.

Definition inventory_data (input_dir : string) : Py (list string) :=
  training_names ←' inventory_data_dir input_dir;
  let ntr := length training_names in
  training_names ←' (if (ntr =? 0)%nat
                     then inventory_data_nodir input_dir
                     else py_ret training_names);
  let ntr := length training_names in
  training_names ←' (if (ntr =? 0)%nat
                     then print "WARNING: Inventory data - No data file found";;'
                          py_ret []
                     else py_ret training_names);
  py_ret (merge_sort String.le training_names).

End Inventory.

(** ** Matrices *)

Section Matrices.
Variable float : Type.
(** The float a Python [int] becomes when it is stored in a float matrix. *)
Variable float_of_int : Z → float.

(** A [scipy.sparse] matrix: its shape and its stored entries, keyed by
    (row, column). [dok_matrix] is a dictionary of exactly these keys; the
    compressed-row form holds the same shape and entries. *)
Record sparse : Type := {
  shape : nat * nat;
  entries : gmap (nat * nat) float;
}.

(** [m[i, j]] for indices within the shape: absent entries read as 0.0. *)
Definition sparse_get (m : sparse) (i j : nat) : float :=
  default (float_of_int 0) (entries m !! (i, j)).

(** [dok_matrix((M, N))] *)
Definition dok_matrix (shp : nat * nat) : sparse :=
  {| shape := shp; entries := ∅ |}.

(** An integer index along an axis of length [n]: negative indices count
    from the end, anything outside [-n, n) is an [IndexError]. *)
Definition axis_index (n : nat) (i : Z) : option nat :=
  if (i <? - Z.of_nat n) || (Z.of_nat n <=? i) then None
  else if i <? 0 then Some (Z.to_nat (i + Z.of_nat n))
  else Some (Z.to_nat i).

(** [m[i, j] = v] on a [dok_matrix], for a non-zero [v]. *)
Definition dok_setitem (m : sparse) (i j : Z) (v : float) : Py sparse :=
  match axis_index (shape m).1 i, axis_index (shape m).2 j with
  | Some i', Some j' =>
      py_ret {| shape := shape m; entries := <[(i', j') := v]> (entries m) |}
  | _, _ => raise IndexError
  end.

(** [m.tocsr()] *)
Definition tocsr (m : sparse) : sparse := m.

(** A dense [numpy] array of floats, as its list of rows. *)
Definition dense : Type := list (list float).

End Matrices.

Arguments shape {float} _.
Arguments entries {float} _.
Arguments sparse_get {float} float_of_int m i j.
Arguments dok_matrix {float} shp.
Arguments dok_setitem {float} m i j v.
Arguments tocsr {float} m.

(** ** Text of a data file *)

Module Text.

Definition newline : ascii := "010"%char.

(** The lines of a text, without their line ends. *)
Fixpoint lines (s : string) : list string :=
  match s with
  | EmptyString => [EmptyString]
  | String c s' =>
      if decide (c = newline) then EmptyString :: lines s'
      else match lines s' with
           | l :: ls => String c l :: ls
           | [] => [String c EmptyString]
           end
  end.

Definition nonempty (s : string) : bool :=
  if s is EmptyString then false else true.

(** Modelled from the spec: the rows [data_converter.file_to_array] yields
    for a text, one row per non-empty line, holding the whitespace-separated
    tokens of the line. *)
Definition rows (text : string) : list (list string) :=
  String.words <$> filter (λ l, nonempty l = true) (lines text).

(** A token [a:b] split at its first colon. *)
Fixpoint split_colon (tok : string) : option (string * string) :=
  match tok with
  | EmptyString => None
  | String c s' =>
      if decide (c = ":"%char) then Some (EmptyString, s')
      else '(a, b) ← split_colon s'; Some (String c a, b)
  end.

(** A text from its lines, each ended by a newline. *)
Fixpoint unlines (ls : list string) : string :=
  match ls with
  | [] => EmptyString
  | l :: ls' => l +:+ String newline (unlines ls')
  end.

End Text.

(** ** Loading the samples *)

Section Loaders.
Variable P : Platform.
Variable float : Type.
Variable float_of_int : Z → float.
(** Python's [float(token)] and [int(token)], [None] where they raise
    [ValueError]. *)
Variable py_float : string → option float.
Variable py_int : string → option Z.
(** The text [print] shows for [np.array(rows)]. *)
Variable np_str : list (list string) → string.

Local Abbreviation sparse := (sparse float).

(** Modelled from the spec: [data_converter.file_to_array] is not among the
    sources; by the spec a data file has one sample per line, the tokens of a
    line are separated by whitespace, and a loader produces one row per
    non-empty line. *)
Definition file_to_array (filename : string) : Py (list (list string)) :=
  match read P filename with
  | None => raise IOError
  | Some text => py_ret (Text.rows text)
  end.

(** What [np.array(rows, dtype=float)] does in [numpy] on a list of lists
    of tokens: the rows must have one length and every token must convert. *)
Definition np_array_float (rows : list (list string)) : Py (dense float) :=
  match rows with
  | [] => py_ret []
  | first :: _ =>
      if forallb (λ r, length r =? length first)%nat rows
      then match mapM (mapM py_float) rows with
           | Some m => py_ret m
           | None => raise ValueError
           end
      else raise ValueError
  end.

(** The global name [np]. The module imports no [numpy] (its imports are
    [closing], [glob], [lib], [os], [shutil], [sys], [ZipFile], the names of
    [scipy.sparse], [yaml], [copy2] and [data_converter]), and the star import
    of [scipy.sparse] does not bind [np], so evaluating the name raises
    [NameError]. *)
Definition np : Py () := raise NameError.

(** In [np.array(...)] the name [np] is evaluated before the arguments, so
    before the file is read. *)
Definition data (filename : string) (feat_type : option (list string))
    (verbose : bool) : Py (dense float) :=
  when verbose (np;;' arr ←' file_to_array filename; print (np_str arr));;'
  np;;'
  arr ←' file_to_array filename;
  np_array_float arr.

(** Modelled from the spec: an [index:value] token parsed into a (1-based
    index, float value) pair, part of the absent
    [data_converter.sparse_file_to_sparse_list]. *)
Definition parse_pair (tok : string) : option (Z * float) :=
  '(a, b) ← Text.split_colon tok;
  k ← py_int a;
  v ← py_float b;
  Some (k, v).

(** Modelled from the spec: [data_converter.sparse_file_to_sparse_list] is
    not among the sources; by the spec each line holds zero or more
    [index:value] tokens, each parsed into a (1-based index, float value)
    pair, and a token that does not parse fails the whole load. *)
Definition sparse_file_to_sparse_list (filename : string)
  : Py (list (list (Z * float))) :=
  match read P filename with
  | None => raise IOError
  | Some text =>
      match mapM (mapM parse_pair) (Text.rows text) with
      | Some sparse_list => py_ret sparse_list
      | None => raise ValueError
      end
  end.

(** Modelled from the spec: the insertion of one row of pairs by the absent
    [data_converter.sparse_list_to_csr_sparse], with the index made 0-based
    and an index outside [1, nbr_features] refused. *)
Fixpoint insert_pairs (m : sparse) (row : nat) (pairs : list (Z * float))
  : Py sparse :=
  match pairs with
  | [] => py_ret m
  | (feature, v) :: rest =>
      if (1 <=? feature) && (feature <=? Z.of_nat (shape m).2)
      then insert_pairs
             {| shape := shape m;
                entries := <[(row, Z.to_nat (feature - 1)) := v]> (entries m) |}
             row rest
      else raise IndexError
  end.

(** Modelled from the spec: the rows of the absent
    [data_converter.sparse_list_to_csr_sparse], inserted from row [row] on. *)
Fixpoint insert_rows (m : sparse) (row : nat) (sparse_list : list (list (Z * float)))
  : Py sparse :=
  match sparse_list with
  | [] => py_ret m
  | pairs :: rest =>
      m' ←' insert_pairs m row pairs;
      insert_rows m' (S row) rest
  end.

(** Modelled from the spec: [data_converter.sparse_list_to_csr_sparse] is
    not among the sources; by the spec each 1-based index is converted to
    0-based and its value inserted into a sparse matrix of
    [rows × nbr_features], and an index outside [1, nbr_features] is a
    malformed-input error that fails the whole load. *)
Definition sparse_list_to_csr_sparse (sparse_list : list (list (Z * float)))
    (nbr_features : nat) : Py sparse :=
  insert_rows (dok_matrix (length sparse_list, nbr_features)) 0 sparse_list.

Definition data_sparse (filename : string) (feat_type : list string) : Py sparse :=
  sparse_list ←' sparse_file_to_sparse_list filename;
  sparse_list_to_csr_sparse sparse_list (length feat_type).

(** [for feature in data[row]: dok_sparse[row, int(feature)-1] = 1] *)
Fixpoint set_features (dok_sparse : sparse) (row : nat) (features : list string)
  : Py sparse :=
  match features with
  | [] => py_ret dok_sparse
  | feature :: rest =>
      match py_int feature with
      | None => raise ValueError
      | Some k =>
          dok_sparse' ←' dok_setitem dok_sparse (Z.of_nat row) (k - 1)
                                     (float_of_int 1);
          set_features dok_sparse' row rest
      end
  end.

(** [for row in range(nbr_samples): ...], from row [row] on. *)
Fixpoint set_rows (dok_sparse : sparse) (row : nat) (data : list (list string))
  : Py sparse :=
  match data with
  | [] => py_ret dok_sparse
  | features :: rest =>
      dok_sparse' ←' set_features dok_sparse row features;
      set_rows dok_sparse' (S row) rest
  end.

Definition data_binary_sparse (filename : string) (feat_type : list string)
  : Py sparse :=
  data ←' file_to_array filename;
  let nbr_samples := length data in
  let dok_sparse := dok_matrix (nbr_samples, length feat_type) in
  print ("Converting " +:+ filename +:+ " to dok sparse matrix");;'
  dok_sparse ←' set_rows dok_sparse 0 data;
  print ("Converting " +:+ filename +:+ " to csr sparse matrix");;'
  py_ret (tocsr dok_sparse).

End Loaders.

(** ** Copying the results *)

Section CopyResults.
(** The file system as [copy_results] sees it: [glob] over the current state,
    and [shutil.copy2], which yields the new state or raises ([None]). *)
Variable FS : Type.
Variable glob_in : FS → string → list string.
Variable copy2 : string → string → FS → option FS.

(** The file system together with the [copy2] calls that went through,
    oldest first. *)
Record world : Type := {
  files : FS;
  copied : list (string * string);
}.

(** [vprint(mode, t)] *)
Definition vprint (mode : bool) (t : string) : Py () := when mode (print t).

(** [for f in fs: copy2(f, output_dir)]; the flag is [false] when a copy
    raised, with the earlier copies done. *)
Fixpoint copy_files (fs : list string) (output_dir : string) (w : world)
  : world * bool :=
  match fs with
  | [] => (w, true)
  | f :: rest =>
      match copy2 f output_dir (files w) with
      | None => (w, false)
      | Some files' =>
          copy_files rest output_dir
            {| files := files'; copied := copied w ++ [(f, output_dir)] |}
      end
  end.

(** The body of the loop for one [basename], inside its [try]: the flag is
    [false] where the source executes [return 0]. *)
Definition copy_basename (basename result_dir output_dir : string) (verbose : bool)
    (w : world) : Py (bool * world) :=
  let test_files :=
    glob_in (files w) (result_dir +:+ "/" +:+ basename +:+ "*_test*.predict") in
  if (length test_files =? 0)%nat then
    vprint verbose ("[-] Missing 'test' result files for " +:+ basename);;'
    py_ret (false, w)
  else
    match copy_files test_files output_dir w with
    | (w1, false) => vprint verbose "[-] Missing result files";;' py_ret (false, w1)
    | (w1, true) =>
        let valid_files :=
          glob_in (files w1) (result_dir +:+ "/" +:+ basename +:+ "*_valid*.predict") in
        if (length valid_files =? 0)%nat then
          vprint verbose ("[-] Missing 'valid' result files for " +:+ basename);;'
          py_ret (false, w1)
        else
          match copy_files valid_files output_dir w1 with
          | (w2, false) =>
              vprint verbose "[-] Missing result files";;' py_ret (false, w2)
          | (w2, true) =>
              vprint verbose ("[+] " +:+ PyStr.capitalize basename +:+ " copied");;'
              py_ret (true, w2)
          end
    end.

Fixpoint copy_results (datanames : list string) (result_dir output_dir : string)
    (verbose : bool) (w : world) : Py (Z * world) :=
  match datanames with
  | [] => py_ret (1, w)
  | basename :: rest =>
      r ←' copy_basename basename result_dir output_dir verbose w;
      if r.1 then copy_results rest result_dir output_dir verbose r.2
      else py_ret (0, r.2)
  end.

End CopyResults.

Arguments files {FS} _.
Arguments copied {FS} _.

(** ** Packing a directory *)

(** [s[start:]] *)
Definition slice_from (s : string) (start : Z) : string :=
  PyStr.slice s start (Z.of_nat (String.length s)).

Section Zipdir.
Variable P : Platform.
(** [os.path.isdir], and [os.walk], which yields for each directory its path
    with the names of its subdirectories and of its files. *)
Variable isdir : string → bool.
Variable walk : string → list (string * list string * list string).

(** [os.sep], the one-character separator that [filesep] repeats. *)
Definition os_sep : string := String (filesep P) EmptyString.

(** [for fn in files: ...] for one directory [root]: the calls
    [z.write(absfn, zfn)] it makes, in order. *)
Definition zip_files (basedir root : string) (files : list string)
  : list (string * string) :=
  flat_map
    (λ fn,
       if decide (slice_from fn (-4) = ".zip") then []
       else
         let absfn := path_join P root fn in
         let zfn :=
           slice_from absfn
             (Z.of_nat (String.length basedir) + Z.of_nat (String.length os_sep)) in
         [(absfn, zfn)])
    files.

(** [zipdir(archivename, basedir)]: the members written to the archive, or
    [None] where the [assert] fails. *)
Definition zipdir (archivename basedir : string) : option (list (string * string)) :=
  if isdir basedir
  then Some (flat_map (λ entry, zip_files basedir entry.1.1 entry.2) (walk basedir))
  else None.

End Zipdir.

(** ** A POSIX platform over a listed file tree, for the examples *)

Module Posix.

(** [posixpath.join(a, b)]. *)
Definition join (a b : string) : string :=
  match b with
  | String "/" _ => b
  | _ =>
      match PyStr.rev a with
      | EmptyString => b
      | String "/" _ => a +:+ b
      | _ => a +:+ "/" +:+ b
      end
  end.

(** Pattern matching of [glob] for the patterns this module builds: a literal
    character matches itself, [*] matches any run of characters that does not
    cross a separator. Hidden names, [?] and bracket sets are left out. *)
Fixpoint wild (pat : string) : string → bool :=
  match pat with
  | EmptyString => λ s, if s is EmptyString then true else false
  | String "*" pat' =>
      fix star (s : string) : bool :=
        wild pat' s ||
        match s with
        | EmptyString => false
        | String c s' => if decide (c = "/"%char) then false else star s'
        end
  | String p pat' =>
      λ s, match s with
           | EmptyString => false
           | String c s' => if decide (c = p) then wild pat' s' else false
           end
  end.

(** A file tree: the regular files with their text, in the order in which
    the directory walk enumerates them. *)
Definition tree : Type := list (string * string).

Definition glob (t : tree) (pat : string) : list string :=
  filter (λ p, wild pat p = true) (fst <$> t).

Definition isfile (t : tree) (p : string) : bool :=
  bool_decide (p ∈ fst <$> t).

Fixpoint read (t : tree) (p : string) : option string :=
  match t with
  | [] => None
  | (q, text) :: t' => if decide (q = p) then Some text else read t' p
  end.

Definition platform (t : tree) : Platform :=
  Build_Platform "posix" join (glob t) (isfile t) (read t).

End Posix.

(** ** Exact decimals, for the examples *)

Module Decimal.

Definition digit (c : ascii) : option Z := Z.of_nat <$> Ascii.is_nat c.

Fixpoint digits (acc : Z) (s : string) : option Z :=
  match s with
  | EmptyString => Some acc
  | String c s' => d ← digit c; digits (10 * acc + d) s'
  end.

Definition natural (s : string) : option Z :=
  if s is EmptyString then None else digits 0 s.

(** [int(s)] on a decimal literal with an optional sign. *)
Definition int (s : string) : option Z :=
  match s with
  | String "-" s' => Z.opp <$> natural s'
  | String "+" s' => natural s'
  | _ => natural s
  end.

Fixpoint split_point (s : string) : string * option string :=
  match s with
  | EmptyString => (EmptyString, None)
  | String c s' =>
      if decide (c = "."%char) then (EmptyString, Some s')
      else let '(a, b) := split_point s' in (String c a, b)
  end.

Definition unsigned (s : string) : option Q :=
  match split_point s with
  | (a, None) => inject_Z <$> natural a
  | (a, Some b) =>
      i ← natural a;
      f ← natural b;
      let scale := 10 ^ Z.of_nat (String.length b) in
      Some (Qred (Qmake (i * scale + f) (Z.to_pos scale)))
  end.

(** [float(s)] on a decimal literal, as the exact rational it denotes. *)
Definition float (s : string) : option Q :=
  match s with
  | String "-" s' => Qopp <$> unsigned s'
  | String "+" s' => unsigned s'
  | _ => unsigned s
  end.

Definition np_str (rows : list (list string)) : string :=
  String.concat " " (String.concat " " <$> rows).

End Decimal.

(** ** A result directory, for the examples *)

Module Results.

(** The file name of a path. *)
Fixpoint basename (p : string) : string :=
  match p with
  | EmptyString => EmptyString
  | String c p' =>
      if decide (c = "/"%char) then basename p'
      else match PyStr.index "/"%char p' with
           | Some _ => basename p'
           | None => p
           end
  end.

Definition glob_in (fs : list string) (pat : string) : list string :=
  filter (λ p, Posix.wild pat p = true) fs.

(** [copy2(src, dst)] into the directory [dst]; it raises when [src] is not
    there. *)
Definition copy2 (src dst : string) (fs : list string) : option (list string) :=
  if bool_decide (src ∈ fs) then Some (fs ++ [Posix.join dst (basename src)])
  else None.

Definition start (fs : list string) : world (list string) :=
  {| files := fs; copied := [] |}.

Definition run (datanames : list string) (verbose : bool) (fs : list string)
  : outcome (Z * world (list string)) * stdout :=
  copy_results (list string) glob_in copy2 datanames "res" "out" verbose (start fs) [].

(** Only dataset [a] has both prediction files. *)
Definition only_a : list string := ["res/a_test.predict"; "res/a_valid.predict"].

(** Dataset [c] has a test prediction and no valid one. *)
Definition half_c : list string := ["res/c_test.predict"].

End Results.

(** ** File trees of the examples *)

Module Trees.

(** Two bundles concatenated under [d]: the complete dataset [a] in [d/a]
    and a second copy of its training file in [d/b]. *)
Definition two_copies : Posix.tree :=
  [("d/a/a_train.data", "1 2"); ("d/a/a_valid.data", "3 4");
   ("d/a/a_test.data", "5 6"); ("d/a/a_train.solution", "1");
   ("d/b/a_train.data", "1 2")].

(** Two complete datasets in the nested layout, and the same tree walked
    in another order. *)
Definition nested : Posix.tree :=
  [("d/zed/zed_train.data", ""); ("d/zed/zed_valid.data", "");
   ("d/zed/zed_test.data", ""); ("d/zed/zed_train.solution", "");
   ("d/abc/abc_train.data", ""); ("d/abc/abc_valid.data", "");
   ("d/abc/abc_test.data", ""); ("d/abc/abc_train.solution", "")].
Definition nested_rewalked : Posix.tree := reverse nested.

(** A dataset directory without [a_valid.data]. *)
Definition no_valid : Posix.tree :=
  [("d/a/a_train.data", ""); ("d/a/a_test.data", "");
   ("d/a/a_train.solution", "")].

(** A flat dataset in the current directory, scanned with [input_dir = ""]. *)
Definition flat_cwd : Posix.tree :=
  [("a_train.data", ""); ("a_valid.data", ""); ("a_test.data", "");
   ("a_train.solution", "")].

End Trees.

Module DenseExample.

Definition files : Posix.tree :=
  [("square.data", Text.unlines ["1 2.5"; "3 4"]);
   ("ragged.data", Text.unlines ["1 2"; "3"])].

Definition load (filename : string) : outcome (dense Q) * stdout :=
  data (Posix.platform files) Q Decimal.float Decimal.np_str filename None false [].

End DenseExample.

Module SparseExample.

Definition files : Posix.tree :=
  [("binary.data", Text.unlines ["1 3"]);
   ("binary_zero.data", Text.unlines ["0"]);
   ("binary_five.data", Text.unlines ["1 3"; "5"]);
   ("sparse.data", Text.unlines ["2:3.0 5:1.5"]);
   ("sparse_six.data", Text.unlines ["2:3.0 6:1.5"])].

Definition load_binary (filename : string) (F : nat) : outcome (sparse Q) * stdout :=
  data_binary_sparse (Posix.platform files) Q inject_Z Decimal.int
    filename (replicate F "Numerical") [].

Definition load_sparse (filename : string) (F : nat) : outcome (sparse Q) * stdout :=
  data_sparse (Posix.platform files) Q Decimal.float Decimal.int
    filename (replicate F "Numerical") [].

(** Row [i] of a returned matrix over columns [0 .. F-1]. *)
Definition row_of (r : outcome (sparse Q) * stdout) (i F : nat) : option (list Q) :=
  match value r with
  | Ret m => Some ((λ j, sparse_get inject_Z m i j) <$> seq 0 F)
  | Raise _ => None
  end.

End SparseExample.

(** ** Vocabulary of the statements *)

(** A computation only appends to standard output and never reads it. *)
Definition appends {A} (m : Py A) : Prop :=
  ∀ out, m out = (value (m []), out ++ printed (m [])).

Section InventoryTerms.
Variable P : Platform.

(** The name a path decodes to, [None] where the decoding raises. *)
Definition decoded (name : string) : option string :=
  i ← PyStr.index (filesep P) (PyStr.rev name);
  j ← PyStr.index "_"%char (PyStr.rev name);
  Some (PyStr.slice name (- Z.of_nat i) (- Z.of_nat j - 1)).

(** The three files [check_dataset] looks for. *)
Definition valid_file (dirname name : string) : string :=
  path_join P dirname (name +:+ "_valid.data").
Definition test_file (dirname name : string) : string :=
  path_join P dirname (name +:+ "_test.data").
Definition training_solution (dirname name : string) : string :=
  path_join P dirname (name +:+ "_train.solution").

Definition complete (dirname name : string) : bool :=
  isfile P (valid_file dirname name) && isfile P (test_file dirname name)
  && isfile P (training_solution dirname name).

(** The message printed for the first file that is missing. *)
Definition missing_report (dirname name : string) : string :=
  if negb (isfile P (valid_file dirname name)) then "No validation file for " +:+ name
  else if negb (isfile P (test_file dirname name)) then "No test file for " +:+ name
  else "No training labels for " +:+ name.

(** A matched path passes when it decodes and its dataset is complete. *)
Definition path_ok (dir_of : string → string) (p : string) : bool :=
  match decoded p with
  | Some n => complete (dir_of n) n
  | None => false
  end.

Definition name_of (p : string) : string := default "" (decoded p).

(** The paths matched under the nested layout and under the flat one. *)
Definition nested_paths (input_dir : string) : list string :=
  glob P (input_dir +:+ "/*/*_train.data").
Definition flat_paths (input_dir : string) : list string :=
  glob P (path_join P input_dir "*_train.data").

(** The layout [inventory_data] ends up using: the flat one only when the
    nested one matched nothing. *)
Definition scanned_paths (input_dir : string) : list string :=
  if nested_paths input_dir is [] then flat_paths input_dir
  else nested_paths input_dir.
Definition scanned_dir (input_dir : string) : string → string :=
  if nested_paths input_dir is [] then λ _, input_dir
  else path_join P input_dir.

Definition scan_ok (input_dir : string) : bool :=
  forallb (path_ok (scanned_dir input_dir)) (scanned_paths input_dir).

Definition empty_warning (input_dir : string) : stdout :=
  if scanned_paths input_dir is []
  then ["WARNING: Inventory data - No data file found"] else [].

(** The same platform with another enumeration order of [glob]. *)
Definition with_glob (glob' : string → list string) : Platform :=
  Build_Platform (os_name P) (path_join P) glob' (isfile P) (read P).

End InventoryTerms.

Section LoaderTerms.
Variable float : Type.
Variable py_int : string → option Z.

(** Row [features] marks column [j] when one of its tokens is the index
    [j + 1]. *)
Definition marks (features : list string) (j : nat) : bool :=
  existsb (λ tok, bool_decide (py_int tok = Some (Z.of_nat j + 1))) features.

Definition in_columns (ncols : nat) (tok : string) : Prop :=
  ∃ k, py_int tok = Some k ∧ 1 ≤ k ≤ Z.of_nat ncols.

(** The value a row of pairs leaves at the 1-based index [k]: that of the
    last pair with this index. *)
Fixpoint last_value (pairs : list (Z * float)) (k : Z) : option float :=
  match pairs with
  | [] => None
  | (k', v) :: rest =>
      match last_value rest k with
      | Some w => Some w
      | None => if decide (k' = k) then Some v else None
      end
  end.

Definition pair_in_columns (ncols : nat) (p : Z * float) : Prop :=
  1 ≤ p.1 ≤ Z.of_nat ncols.

End LoaderTerms.

Arguments last_value {float} pairs k.
Arguments pair_in_columns {float} ncols p.

(** The two patterns [copy_results] looks up for a dataset. *)
Definition test_pattern (result_dir basename : string) : string :=
  result_dir +:+ "/" +:+ basename +:+ "*_test*.predict".
Definition valid_pattern (result_dir basename : string) : string :=
  result_dir +:+ "/" +:+ basename +:+ "*_valid*.predict".

(** A directory to pack, for the examples. *)
Module ZipExample.

Definition isdir (d : string) : bool := bool_decide (d = "sub" ∨ d = "sub/").

Definition walk (top : string) : list (string * list string * list string) :=
  if decide (top = "sub") then
    [("sub", ["res"], ["run.py"; "old.zip"]); ("sub/res", [], ["a_test.predict"])]
  else if decide (top = "sub/") then
    [("sub/", ["res"], ["run.py"; "old.zip"]); ("sub/res", [], ["a_test.predict"])]
  else [].

Definition pack (basedir : string) : option (list (string * string)) :=
  zipdir (Posix.platform []) isdir walk "sub.zip" basedir.

End ZipExample.

Section WrapTerms.
Variable py_int : string → option Z.

(** The column a 1-based index token lands on in a row of [ncols] columns,
    with the wrap-around of negative columns; [None] where the token is no
    integer or the column is out of bounds. *)
Definition column_of (ncols : nat) (tok : string) : option nat :=
  k ← py_int tok; axis_index ncols (k - 1).

(** Row [features] reaches column [j]. *)
Definition reaches (ncols : nat) (features : list string) (j : nat) : bool :=
  existsb (λ tok, bool_decide (column_of ncols tok = Some j)) features.

End WrapTerms.

(** A file name ends in [.zip]. *)
Definition zip_name (fn : string) : Prop := ∃ stem, fn = stem +:+ ".zip".

(** ** Facts about the string primitives *)

Section StringFacts.

Lemma app_nil_l_str (b : string) : "" +:+ b = b.
Proof. reflexivity. Qed.

Lemma app_cons_str (x : ascii) (a b : string) :
  String x a +:+ b = String x (a +:+ b).
Proof. reflexivity. Qed.

Lemma length_app (a b : string) :
  String.length (a +:+ b) = (String.length a + String.length b)%nat.
Proof.
  induction a as [|c a IH]; [done|].
  rewrite app_cons_str. simpl. by rewrite IH.
Qed.

Lemma app_assoc_str (a b c : string) : (a +:+ b) +:+ c = a +:+ (b +:+ c).
Proof.
  induction a as [|x a IH]; [done|].
  by rewrite !app_cons_str, IH.
Qed.

Lemma app_nil_r_str (a : string) : a +:+ "" = a.
Proof.
  induction a as [|x a IH]; [done|]. by rewrite app_cons_str, IH.
Qed.

Lemma rev_app_spec (a b : string) : String.rev_app a b = String.rev a +:+ b.
Proof.
  revert b. induction a as [|c a IH]; intros b; [done|].
  unfold String.rev. simpl. rewrite (IH (String c b)), (IH (String c "")).
  by rewrite app_assoc_str.
Qed.

Lemma rev_cons (x : ascii) (a : string) :
  String.rev (String x a) = String.rev a +:+ String x "".
Proof. unfold String.rev at 1. simpl. apply rev_app_spec. Qed.

Lemma rev_app_distr (a b : string) :
  String.rev (a +:+ b) = String.rev b +:+ String.rev a.
Proof.
  induction a as [|x a IH].
  - by rewrite app_nil_l_str, app_nil_r_str.
  - rewrite app_cons_str, !rev_cons, IH. apply app_assoc_str.
Qed.

Lemma index_app (c : ascii) (a b : string) :
  PyStr.index c (a +:+ b) =
  match PyStr.index c a with
  | Some i => Some i
  | None => (λ j, String.length a + j)%nat <$> PyStr.index c b
  end.
Proof.
  induction a as [|x a IH].
  - rewrite app_nil_l_str. simpl. by destruct (PyStr.index c b).
  - rewrite app_cons_str. simpl. case_decide; [done|]. rewrite IH.
    destruct (PyStr.index c a); [done|]. by destruct (PyStr.index c b).
Qed.

Lemma index_rev_None (c : ascii) (s : string) :
  PyStr.index c s = None → PyStr.index c (String.rev s) = None.
Proof.
  induction s as [|x s IH]; [done|]. simpl.
  case_decide as Hx; [done|]. intros Hs.
  rewrite rev_cons, index_app, IH.
  - simpl. by rewrite decide_False.
  - by destruct (PyStr.index c s).
Qed.

Lemma length_rev (s : string) : String.length (String.rev s) = String.length s.
Proof.
  induction s as [|x s IH]; [done|].
  rewrite rev_cons, length_app, IH. simpl. lia.
Qed.

Lemma substring_skip (a b : string) (n : nat) :
  String.substring (String.length a) n (a +:+ b) = String.substring 0 n b.
Proof.
  induction a as [|x a IH]; [done|]. rewrite app_cons_str. simpl. apply IH.
Qed.

Lemma substring_prefix (a b : string) :
  String.substring 0 (String.length a) (a +:+ b) = a.
Proof.
  induction a as [|x a IH].
  - rewrite app_nil_l_str. simpl. by destruct b.
  - rewrite app_cons_str. simpl. by rewrite IH.
Qed.

End StringFacts.

(** ** The name decoded from a path *)

Section NameFromPath.
Variable P : Platform.

Lemma filesep_cases : filesep P = "/"%char ∨ filesep P = "\"%char.
Proof. unfold filesep. case_decide; auto. Qed.

(** The reversed path starts with the reversed suffix, so the underscore of
    the suffix is found at offset 10 and the separator only after the
    reversed name. *)
Lemma rev_train_path (dir name : string) :
  PyStr.rev (dir +:+ String (filesep P) (name +:+ "_train.data")) =
  "atad.niart_" +:+ (String.rev name +:+ String (filesep P) (String.rev dir)).
Proof.
  unfold PyStr.rev.
  rewrite rev_app_distr, rev_cons, rev_app_distr.
  change (String.rev "_train.data") with "atad.niart_".
  by rewrite !app_assoc_str.
Qed.

Lemma index_filesep_train_path (dir name : string) :
  PyStr.index (filesep P) name = None →
  PyStr.index (filesep P)
    (PyStr.rev (dir +:+ String (filesep P) (name +:+ "_train.data")))
  = Some (11 + String.length name)%nat.
Proof.
  intros Hname. rewrite rev_train_path, index_app.
  assert (PyStr.index (filesep P) "atad.niart_" = None) as ->
    by (destruct filesep_cases as [-> | ->]; reflexivity).
  rewrite index_app, (index_rev_None _ _ Hname), length_rev.
  simpl. rewrite decide_True by done. simpl. f_equal. lia.
Qed.

Lemma index_underscore_train_path (dir name : string) :
  PyStr.index "_"%char
    (PyStr.rev (dir +:+ String (filesep P) (name +:+ "_train.data")))
  = Some 10%nat.
Proof. by rewrite rev_train_path, index_app. Qed.

Lemma slice_train_path (dir name : string) :
  PyStr.slice (dir +:+ String (filesep P) (name +:+ "_train.data"))
    (- Z.of_nat (11 + String.length name)) (- Z.of_nat 10 - 1) = name.
Proof.
  unfold PyStr.slice, PyStr.slice_bound.
  rewrite length_app. simpl String.length. rewrite length_app.
  simpl String.length.
  set (d := String.length dir). set (n := String.length name).
  rewrite (proj2 (Z.ltb_lt _ 0)) by lia.
  rewrite (proj2 (Z.ltb_lt _ 0)) by lia.
  replace (Z.to_nat (Z.max 0 _)) with (String.length (dir +:+ String (filesep P) ""))
    by (rewrite length_app; simpl; lia).
  match goal with
  | |- String.substring _ (Z.to_nat ?k) _ = _ =>
      replace (Z.to_nat k) with n by lia
  end.
  replace (dir +:+ String (filesep P) (name +:+ "_train.data"))
    with ((dir +:+ String (filesep P) "") +:+ (name +:+ "_train.data"))
    by (by rewrite app_assoc_str).
  rewrite substring_skip. apply substring_prefix.
Qed.

End NameFromPath.

(** C8. A path [<dir><separator><name>_train.data] whose [<name>] holds no
    separator (it may hold underscores, and anything may precede the last
    separator) decodes to exactly [<name>]: the reverse scan finds the last
    separator and the last underscore. *)
Theorem name_from_path_train_data (P : Platform) (dir name : string) (out : stdout) :
  PyStr.index (filesep P) name = None →
  name_from_path P (dir +:+ String (filesep P) (name +:+ "_train.data")) out
  = (Ret name, out).
Proof.
  intros Hname. unfold name_from_path.
  rewrite (index_filesep_train_path P dir name Hname).
  rewrite index_underscore_train_path.
  unfold py_ret. by rewrite slice_train_path.
Qed.

Lemma name_from_path_train_data_witness :
  PyStr.index (filesep (Posix.platform [])) "a_b" = None ∧
  name_from_path (Posix.platform []) "d/a_b_train.data" [] = (Ret "a_b", []).
Proof.
  split; [reflexivity|].
  apply (name_from_path_train_data (Posix.platform []) "d" "a_b" []).
  reflexivity.
Defined.

(** ** Facts about the [Py] monad *)

Section PyFacts.
Context {A B : Type}.

Lemma py_bind_Ret (m : Py A) (k : A → Py B) (out out' : stdout) (a : A) :
  m out = (Ret a, out') → py_bind m k out = k a out'.
Proof. unfold py_bind. by intros ->. Qed.

Lemma py_bind_Raise (m : Py A) (k : A → Py B) (out out' : stdout) (e : exn) :
  m out = (Raise e, out') → py_bind m k out = (Raise e, out').
Proof. unfold py_bind. by intros ->. Qed.

Lemma appends_ret (a : A) : appends (py_ret a).
Proof. intros out. unfold py_ret, value, printed. simpl. by rewrite app_nil_r. Qed.

Lemma appends_raise (e : exn) : appends (@raise A e).
Proof. intros out. unfold raise, value, printed. simpl. by rewrite app_nil_r. Qed.

End PyFacts.

Lemma appends_print (s : string) : appends (print s).
Proof. intros out. reflexivity. Qed.

Lemma appends_bind {A B} (m : Py A) (k : A → Py B) :
  appends m → (∀ a, appends (k a)) → appends (py_bind m k).
Proof.
  intros Hm Hk out. unfold py_bind, value, printed.
  rewrite (Hm out). unfold value, printed.
  destruct (m []) as [[a|e] w]; simpl.
  - rewrite (Hk a (out ++ w)), (Hk a w). unfold value, printed. simpl.
    by rewrite app_assoc.
  - done.
Qed.

Lemma appends_when (c : bool) (body : Py ()) : appends body → appends (when c body).
Proof. destruct c; simpl; [done | intros _; apply appends_ret]. Qed.

Create HintDb appends.
#[global] Hint Resolve appends_ret appends_raise appends_print appends_when : appends.
#[global] Hint Extern 2 (appends (py_bind _ _)) =>
  apply appends_bind; [|intros ?] : appends.

Lemma appends_value {A} (m : Py A) (out1 out2 : stdout) :
  appends m → value (m out1) = value (m out2).
Proof. intros Hm. by rewrite (Hm out1), (Hm out2). Qed.

(** ** Facts about the validator and the inventory *)

Section InventoryFacts.
Variable P : Platform.

Lemma name_from_path_decoded (name : string) (out : stdout) :
  name_from_path P name out =
  (match decoded P name with Some n => Ret n | None => Raise ValueError end, out).
Proof.
  unfold name_from_path, decoded.
  destruct (PyStr.index (filesep P) _); simpl; [|done].
  by destruct (PyStr.index "_"%char _).
Qed.

Lemma check_dataset_run (dirname name : string) (out : stdout) :
  check_dataset P dirname name out =
  if complete P dirname name then (Ret true, out)
  else (Raise (SystemExit 1), out ++ [missing_report P dirname name]).
Proof.
  unfold check_dataset, complete, missing_report, valid_file, test_file,
    training_solution, py_bind, when, print, exit, raise, py_ret.
  destruct (isfile P (path_join P dirname (name +:+ "_valid.data"))); simpl; [|done].
  destruct (isfile P (path_join P dirname (name +:+ "_test.data"))); simpl; [|done].
  by destruct (isfile P (path_join P dirname (name +:+ "_train.solution"))).
Qed.

Lemma appends_name_from_path (name : string) : appends (name_from_path P name).
Proof.
  intros out. rewrite !name_from_path_decoded. unfold value, printed. simpl.
  by rewrite app_nil_r.
Qed.

Lemma appends_check_dataset (dirname name : string) :
  appends (check_dataset P dirname name).
Proof.
  intros out. rewrite !check_dataset_run. unfold value, printed.
  destruct (complete P dirname name); simpl; [by rewrite app_nil_r | done].
Qed.

Local Hint Resolve appends_name_from_path appends_check_dataset : appends.

Lemma appends_inventory_loop (dir_of : string → string) (paths : list string) :
  appends (inventory_loop P dir_of paths).
Proof. induction paths as [|p paths IH]; simpl; auto 10 with appends. Qed.

Local Hint Resolve appends_inventory_loop : appends.

Lemma appends_inventory_data (input_dir : string) :
  appends (inventory_data P input_dir).
Proof.
  unfold inventory_data, inventory_data_dir, inventory_data_nodir.
  apply appends_bind; [auto with appends|]. intros ns.
  apply appends_bind; [destruct (_ =? _)%nat; auto with appends|]. intros ns'.
  apply appends_bind; [destruct (_ =? _)%nat; auto with appends|].
  auto with appends.
Qed.

End InventoryFacts.

Section ScanFacts.
Variable P : Platform.

Lemma inventory_loop_ok dir_of (paths : list string) (out : stdout) :
  forallb (path_ok P dir_of) paths = true →
  inventory_loop P dir_of paths out = (Ret (name_of P <$> paths), out).
Proof.
  revert out. induction paths as [|p paths IH]; intros out Hok; [done|].
  simpl in Hok. apply andb_true_iff in Hok as [Hp Hrest].
  unfold path_ok in Hp. simpl. unfold name_of at 1.
  destruct (decoded P p) as [n|] eqn:Hd; [|done].
  erewrite py_bind_Ret; [|by rewrite name_from_path_decoded, Hd].
  erewrite py_bind_Ret; [|by rewrite check_dataset_run, Hp].
  erewrite py_bind_Ret; [|by apply IH]. done.
Qed.

Lemma inventory_loop_fail dir_of (paths : list string) (out : stdout) :
  forallb (path_ok P dir_of) paths = false →
  ∃ e out', inventory_loop P dir_of paths out = (Raise e, out') ∧
            (Forall (λ p, is_Some (decoded P p)) paths → e = SystemExit 1).
Proof.
  revert out. induction paths as [|p paths IH]; intros out Hbad; [done|].
  simpl in Hbad. simpl. unfold path_ok in Hbad at 1.
  destruct (decoded P p) as [n|] eqn:Hd.
  - erewrite py_bind_Ret; [|by rewrite name_from_path_decoded, Hd].
    destruct (complete P (dir_of n) n) eqn:Hc.
    + erewrite py_bind_Ret; [|by rewrite check_dataset_run, Hc].
      destruct (IH out Hbad) as (e & out' & Hrun & He).
      exists e, out'. split; [by erewrite py_bind_Raise|].
      intros Hall. apply He. by inversion Hall.
    + eexists _, _. split; [|done].
      erewrite py_bind_Raise; [done|]. by rewrite check_dataset_run, Hc.
  - exists ValueError, out. split.
    + erewrite py_bind_Raise; [done|]. by rewrite name_from_path_decoded, Hd.
    + intros Hall. inversion Hall as [|? ? [? Hsome]]; congruence.
Qed.

Lemma inventory_data_ok (input_dir : string) (out : stdout) :
  scan_ok P input_dir = true →
  inventory_data P input_dir out =
  (Ret (merge_sort String.le (name_of P <$> scanned_paths P input_dir)),
   out ++ empty_warning P input_dir).
Proof.
  unfold scan_ok, empty_warning, scanned_paths, scanned_dir, inventory_data,
    inventory_data_dir, inventory_data_nodir, nested_paths, flat_paths.
  destruct (glob P (input_dir +:+ "/*/*_train.data")) as [|p ps] eqn:Hn.
  - intros Hok. erewrite py_bind_Ret; [|done]. simpl length. simpl Nat.eqb.
    erewrite py_bind_Ret; [|by apply inventory_loop_ok].
    rewrite length_fmap.
    destruct (glob P (path_join P input_dir "*_train.data")) as [|q qs]; simpl.
    + done.
    + by rewrite app_nil_r.
  - intros Hok. erewrite py_bind_Ret; [|by apply inventory_loop_ok].
    simpl. by rewrite app_nil_r.
Qed.

Lemma inventory_data_fail (input_dir : string) (out : stdout) :
  scan_ok P input_dir = false →
  ∃ e out', inventory_data P input_dir out = (Raise e, out') ∧
    (Forall (λ p, is_Some (decoded P p)) (scanned_paths P input_dir) →
     e = SystemExit 1).
Proof.
  unfold scan_ok, scanned_paths, scanned_dir, inventory_data,
    inventory_data_dir, inventory_data_nodir, nested_paths, flat_paths.
  destruct (glob P (input_dir +:+ "/*/*_train.data")) as [|p ps] eqn:Hn.
  - intros Hbad. erewrite py_bind_Ret; [|done]. simpl length. simpl Nat.eqb.
    destruct (inventory_loop_fail _ _ out Hbad) as (e & out' & Hrun & He).
    exists e, out'. split; [|done]. by erewrite py_bind_Raise.
  - intros Hbad.
    destruct (inventory_loop_fail _ _ out Hbad) as (e & out' & Hrun & He).
    exists e, out'. split; [|done]. by erewrite py_bind_Raise.
Qed.

(** [inventory_data] returns exactly when every scanned path passes, and
    then it returns the sorted decoded names. *)
Lemma inventory_data_Ret (input_dir : string) (out : stdout) (l : list string) :
  value (inventory_data P input_dir out) = Ret l ↔
  scan_ok P input_dir = true ∧
  l = merge_sort String.le (name_of P <$> scanned_paths P input_dir).
Proof.
  destruct (scan_ok P input_dir) eqn:Hok.
  - rewrite inventory_data_ok by done. unfold value. simpl.
    split; [by intros [= <-] | by intros [_ ->]].
  - destruct (inventory_data_fail input_dir out Hok) as (e & out' & -> & _).
    unfold value. simpl. split; [done | by intros [? _]].
Qed.

End ScanFacts.

Example inventory_two_copies :
  inventory_data (Posix.platform Trees.two_copies) "d" [] = (Ret ["a"; "a"], []).
Proof. vm_compute. reflexivity. Qed.

Example inventory_nested :
  inventory_data (Posix.platform Trees.nested) "d" [] = (Ret ["abc"; "zed"], []).
Proof. vm_compute. reflexivity. Qed.

Example inventory_no_valid :
  inventory_data (Posix.platform Trees.no_valid) "d" []
  = (Raise (SystemExit 1), ["No validation file for a"]).
Proof. vm_compute. reflexivity. Qed.

Example inventory_flat_cwd :
  inventory_data (Posix.platform Trees.flat_cwd) "" [] = (Raise ValueError, []).
Proof. vm_compute. reflexivity. Qed.

Example inventory_flat_dot :
  inventory_data (Posix.platform [("./a_train.data", ""); ("./a_valid.data", "");
                                  ("./a_test.data", ""); ("./a_train.solution", "")])
                 "." [] = (Ret ["a"], []).
Proof. vm_compute. reflexivity. Qed.

Example inventory_empty :
  inventory_data (Posix.platform []) "d" []
  = (Ret [], ["WARNING: Inventory data - No data file found"]).
Proof. vm_compute. reflexivity. Qed.

(** ** Properties of the inventory *)

Section ScanProperties.
Variable P : Platform.

Lemma scan_ok_mapM (dir_of : string → string) (paths : list string) :
  forallb (path_ok P dir_of) paths = true →
  mapM (decoded P) paths = Some (name_of P <$> paths).
Proof.
  induction paths as [|p paths IH]; [done|]. simpl.
  intros [Hp Hrest]%andb_true_iff. unfold path_ok in Hp. unfold name_of at 1.
  rewrite (IH Hrest). by destruct (decoded P p).
Qed.

Lemma forallb_Permutation {A} (f : A → bool) (l1 l2 : list A) :
  l1 ≡ₚ l2 → forallb f l1 = forallb f l2.
Proof.
  induction 1 as [|x l1 l2 _ IH|x y l|l1 l2 l3 _ IH1 _ IH2]; simpl.
  - done.
  - by rewrite IH.
  - by destruct (f x), (f y).
  - by rewrite IH1.
Qed.

Lemma merge_sort_Permutation_eq (l1 l2 : list string) :
  l1 ≡ₚ l2 → merge_sort String.le l1 = merge_sort String.le l2.
Proof.
  intros Hperm. apply (Sorted_unique String.le).
  - apply Sorted_merge_sort, _.
  - apply Sorted_merge_sort, _.
  - by rewrite !merge_sort_Permutation.
Qed.

Lemma scanned_with_glob (glob' : string → list string) (input_dir : string) :
  (∀ pat, glob' pat ≡ₚ glob P pat) →
  scanned_paths (with_glob P glob') input_dir ≡ₚ scanned_paths P input_dir ∧
  scanned_dir (with_glob P glob') input_dir = scanned_dir P input_dir.
Proof.
  intros Hperm. unfold scanned_paths, scanned_dir, nested_paths, flat_paths.
  simpl. pose proof (Hperm (input_dir +:+ "/*/*_train.data")) as Hn.
  destruct (glob P (input_dir +:+ "/*/*_train.data")) as [|p ps].
  - apply Permutation_nil_r in Hn as ->. split; [apply Hperm | done].
  - destruct (glob' (input_dir +:+ "/*/*_train.data")) as [|q qs]; [|done].
    by apply Permutation_nil_l in Hn.
Qed.

Lemma inventory_data_with_glob glob' (input_dir : string) (out out' : stdout)
    (l : list string) :
  (∀ pat, glob' pat ≡ₚ glob P pat) →
  value (inventory_data P input_dir out) = Ret l →
  value (inventory_data (with_glob P glob') input_dir out') = Ret l.
Proof.
  intros Hperm. rewrite !inventory_data_Ret.
  destruct (scanned_with_glob glob' input_dir Hperm) as [Hpaths Hdir].
  intros [Hok ->]. split.
  - unfold scan_ok in *. rewrite Hdir, <- Hok.
    by apply forallb_Permutation.
  - apply merge_sort_Permutation_eq.
    change (name_of (with_glob P glob')) with (name_of P).
    by rewrite Hpaths.
Qed.

End ScanProperties.

(** C1, as the code has it. The list [inventory_data] returns is the sorted
    list of the names decoded from the matched training files, one entry for
    each matched path: names are not deduplicated, and the list is free of
    duplicates exactly when no two matched paths decode to the same name. *)
Theorem inventory_data_one_name_per_path (P : Platform) (input_dir : string)
    (out : stdout) (l : list string) :
  value (inventory_data P input_dir out) = Ret l →
  ∃ names, mapM (decoded P) (scanned_paths P input_dir) = Some names ∧
           l ≡ₚ names ∧ Sorted String.le l ∧ (NoDup l ↔ NoDup names).
Proof.
  intros [Hok ->]%inventory_data_Ret.
  exists (name_of P <$> scanned_paths P input_dir). split; [|split; [|split]].
  - by eapply scan_ok_mapM.
  - apply merge_sort_Permutation.
  - apply Sorted_merge_sort, _.
  - by rewrite merge_sort_Permutation.
Qed.

Lemma inventory_data_one_name_per_path_witness :
  ∃ names,
    mapM (decoded (Posix.platform Trees.two_copies))
         (scanned_paths (Posix.platform Trees.two_copies) "d") = Some names ∧
    ["a"; "a"] ≡ₚ names ∧ Sorted String.le ["a"; "a"] ∧
    (NoDup ["a"; "a"] ↔ NoDup names).
Proof.
  apply (inventory_data_one_name_per_path
           (Posix.platform Trees.two_copies) "d" [] ["a"; "a"]).
  vm_compute. reflexivity.
Defined.

(** C1, as stated, fails: with the same training file name under two
    subdirectories the inventory lists the dataset twice. *)
Lemma inventory_data_returns_duplicates :
  value (inventory_data (Posix.platform Trees.two_copies) "d" []) = Ret ["a"; "a"]
  ∧ ¬ NoDup ["a"; "a"].
Proof.
  split; [vm_compute; reflexivity|].
  intros Hnd. apply NoDup_cons in Hnd as [Hnotin _].
  apply Hnotin. left.
Qed.

(** C9. The list [inventory_data] returns does not depend on the order in
    which [glob] enumerates its matches: under any re-enumeration of the same
    matches it returns the same ascending list (and it returns under one order
    exactly when it returns under the other); a second run on the unchanged
    tree, after whatever the first run printed, returns what the first did. *)
Theorem inventory_data_walk_order_independent (P : Platform)
    (glob' : string → list string) (input_dir : string) (out out' : stdout) :
  (∀ pat, glob' pat ≡ₚ glob P pat) →
  (∀ l, value (inventory_data P input_dir out) = Ret l ↔
        value (inventory_data (with_glob P glob') input_dir out') = Ret l)
  ∧ (∀ l, value (inventory_data P input_dir out) = Ret l → Sorted String.le l)
  ∧ value (inventory_data P input_dir (printed (inventory_data P input_dir out)))
    = value (inventory_data P input_dir out).
Proof.
  intros Hperm. split; [|split].
  - intros l. split.
    + by apply inventory_data_with_glob.
    + intros Hl.
      apply (inventory_data_with_glob (with_glob P glob') (glob P) input_dir out' out)
        in Hl; [|intros pat; symmetry; apply Hperm].
      by destruct P.
  - intros l [_ ->]%inventory_data_Ret. apply Sorted_merge_sort, _.
  - apply appends_value, appends_inventory_data.
Qed.

Lemma glob_rewalked (t : Posix.tree) (pat : string) :
  Posix.glob (reverse t) pat ≡ₚ Posix.glob t pat.
Proof. unfold Posix.glob. by rewrite fmap_reverse, reverse_Permutation. Qed.

Lemma inventory_data_walk_order_independent_witness :
  value (inventory_data (Posix.platform Trees.nested) "d" []) = Ret ["abc"; "zed"]
  ∧ value (inventory_data (Posix.platform Trees.nested_rewalked) "d" [])
    = Ret ["abc"; "zed"]
  ∧ Sorted String.le ["abc"; "zed"].
Proof.
  pose proof (inventory_data_walk_order_independent
                (Posix.platform Trees.nested)
                (Posix.glob Trees.nested_rewalked) "d" [] []
                (glob_rewalked Trees.nested)) as (Hiff & Hsorted & _).
  assert (value (inventory_data (Posix.platform Trees.nested) "d" [])
          = Ret ["abc"; "zed"]) as Hrun by (vm_compute; reflexivity).
  split; [exact Hrun|]. split.
  - exact (proj1 (Hiff _) Hrun).
  - exact (Hsorted _ Hrun).
Defined.

(** C10. The flat-layout decoding takes for granted that a matched path holds
    a separator: when the nested pattern matches nothing and the first match
    of the flat pattern has no separator (as with [input_dir = ""], where the
    pattern is the bare [*_train.data]), the reverse search for the separator
    fails and [inventory_data] raises [ValueError] instead of returning a list
    or printing the empty-inventory warning. *)
Theorem inventory_data_bare_path_raises (P : Platform) (input_dir : string)
    (out : stdout) (p : string) (rest : list string) :
  glob P (input_dir +:+ "/*/*_train.data") = [] →
  glob P (path_join P input_dir "*_train.data") = p :: rest →
  PyStr.index (filesep P) p = None →
  inventory_data P input_dir out = (Raise ValueError, out).
Proof.
  intros Hnested Hflat Hsep.
  unfold inventory_data, inventory_data_dir, inventory_data_nodir.
  rewrite Hnested, Hflat.
  erewrite py_bind_Ret; [|done]. simpl length. simpl Nat.eqb.
  erewrite py_bind_Raise; [done|]. simpl.
  erewrite py_bind_Raise; [done|].
  rewrite name_from_path_decoded. unfold decoded, PyStr.rev.
  by rewrite (index_rev_None _ _ Hsep).
Qed.

Lemma inventory_data_bare_path_raises_witness :
  glob (Posix.platform Trees.flat_cwd) "*_train.data" = ["a_train.data"] ∧
  inventory_data (Posix.platform Trees.flat_cwd) "" [] = (Raise ValueError, []).
Proof.
  split; [reflexivity|].
  apply (inventory_data_bare_path_raises
           (Posix.platform Trees.flat_cwd) "" [] "a_train.data" []);
    reflexivity.
Defined.

(** C3. [check_dataset] looks for [<name>_valid.data], then
    [<name>_test.data], then [<name>_train.solution]; at the first one that is
    missing it prints which one and exits with status 1, and it returns [True]
    only when all three exist. The exit is not caught by the inventory: when a
    scanned path decodes to a dataset with a missing file, [inventory_data]
    returns no list, and it ends in [SystemExit 1] when every scanned path
    decodes. *)
Theorem check_dataset_first_missing_is_fatal (P : Platform) :
  (∀ dirname name out,
     check_dataset P dirname name out =
     if negb (isfile P (path_join P dirname (name +:+ "_valid.data")))
     then (Raise (SystemExit 1), out ++ ["No validation file for " +:+ name])
     else if negb (isfile P (path_join P dirname (name +:+ "_test.data")))
     then (Raise (SystemExit 1), out ++ ["No test file for " +:+ name])
     else if negb (isfile P (path_join P dirname (name +:+ "_train.solution")))
     then (Raise (SystemExit 1), out ++ ["No training labels for " +:+ name])
     else (Ret true, out))
  ∧ (∀ input_dir out p name,
       p ∈ scanned_paths P input_dir →
       decoded P p = Some name →
       complete P (scanned_dir P input_dir name) name = false →
       (∀ l, value (inventory_data P input_dir out) ≠ Ret l) ∧
       (Forall (λ q, is_Some (decoded P q)) (scanned_paths P input_dir) →
        value (inventory_data P input_dir out) = Raise (SystemExit 1))).
Proof.
  split.
  - intros dirname name out. rewrite check_dataset_run.
    unfold complete, missing_report, valid_file, test_file, training_solution.
    destruct (isfile P (path_join P dirname (name +:+ "_valid.data"))); simpl; [|done].
    destruct (isfile P (path_join P dirname (name +:+ "_test.data"))); simpl; [|done].
    by destruct (isfile P (path_join P dirname (name +:+ "_train.solution"))).
  - intros input_dir out p name Hin Hdec Hmissing.
    assert (scan_ok P input_dir = false) as Hbad.
    { apply not_true_is_false. unfold scan_ok. rewrite forallb_forall.
      intros Hall. specialize (Hall p (proj1 (list_elem_of_In _ _) Hin)).
      unfold path_ok in Hall. rewrite Hdec in Hall. congruence. }
    destruct (inventory_data_fail P input_dir out Hbad) as (e & out1 & Hrun & He).
    rewrite Hrun. unfold value. simpl. split; [done|].
    intros Hall. by rewrite (He Hall).
Qed.

Lemma check_dataset_first_missing_is_fatal_witness :
  check_dataset (Posix.platform Trees.no_valid) "d/a" "a" []
  = (Raise (SystemExit 1), ["No validation file for a"])
  ∧ value (inventory_data (Posix.platform Trees.no_valid) "d" [])
    = Raise (SystemExit 1).
Proof.
  destruct (check_dataset_first_missing_is_fatal (Posix.platform Trees.no_valid))
    as [Hcheck Hscan].
  split.
  - rewrite Hcheck. reflexivity.
  - apply (Hscan "d" [] "d/a/a_train.data" "a").
    + vm_compute. left.
    + reflexivity.
    + reflexivity.
    + vm_compute. repeat constructor. by eexists.
Defined.

Example rows_two_lines :
  Text.rows (Text.unlines ["1 2"; "3 4"]) = [["1"; "2"]; ["3"; "4"]].
Proof. reflexivity. Qed.

Example rows_skip_empty_line :
  Text.rows (Text.unlines ["2:3.0 5:1.5"; ""; "1:2"]) = [["2:3.0"; "5:1.5"]; ["1:2"]].
Proof. reflexivity. Qed.

(** ** Properties of the dense loader *)

Section DenseFacts.
Variable P : Platform.
Variable float : Type.
Variable py_float : string → option float.
Variable np_str : list (list string) → string.

Lemma file_to_array_run (filename text : string) (out : stdout) :
  read P filename = Some text →
  file_to_array P filename out = (Ret (Text.rows text), out).
Proof. unfold file_to_array. by intros ->. Qed.

End DenseFacts.

(** C7 does not hold of the code. [data] evaluates the name [np], which the
    module never binds: every call raises [NameError] before the file is read
    and before anything is printed, whatever the file holds; no matrix is
    ever returned, and a ragged file fails in the same way as any other. *)
Theorem data_raises_NameError (P : Platform) (float : Type)
    (py_float : string → option float) (np_str : list (list string) → string)
    (filename : string) (feat_type : option (list string)) (verbose : bool)
    (out : stdout) :
  data P float py_float np_str filename feat_type verbose out
  = (Raise NameError, out).
Proof.
  unfold data. destruct verbose; cbn [when].
  - erewrite py_bind_Raise; [done|]. by erewrite py_bind_Raise.
  - erewrite py_bind_Ret; [|reflexivity]. by erewrite py_bind_Raise.
Qed.

(** The file of two lines of two numeric tokens each, and the ragged one. *)
Example data_square :
  Text.rows (Text.unlines ["1 2.5"; "3 4"]) = [["1"; "2.5"]; ["3"; "4"]]
  ∧ DenseExample.load "square.data" = (Raise NameError, []).
Proof. split; reflexivity. Qed.

Example data_ragged : DenseExample.load "ragged.data" = (Raise NameError, []).
Proof. reflexivity. Qed.

(** ** Properties of the binary-indicator loader *)

Section BinaryFacts.
Variable float : Type.
Variable float_of_int : Z → float.
Variable py_int : string → option Z.

Local Abbreviation sparse := (sparse float).
Local Abbreviation one := (float_of_int 1).

Lemma axis_index_inside (n : nat) (i : Z) :
  0 ≤ i < Z.of_nat n → axis_index n i = Some (Z.to_nat i).
Proof.
  intros Hi. unfold axis_index.
  rewrite (proj2 (Z.ltb_ge _ _)) by lia. rewrite (proj2 (Z.leb_gt _ _)) by lia.
  simpl. by rewrite (proj2 (Z.ltb_ge _ _)) by lia.
Qed.

Lemma axis_index_wraps (n : nat) (i : Z) :
  - Z.of_nat n ≤ i < 0 → axis_index n i = Some (Z.to_nat (i + Z.of_nat n)).
Proof.
  intros Hi. unfold axis_index.
  rewrite (proj2 (Z.ltb_ge _ _)) by lia. rewrite (proj2 (Z.leb_gt _ _)) by lia.
  simpl. by rewrite (proj2 (Z.ltb_lt _ _)) by lia.
Qed.

Lemma axis_index_outside (n : nat) (i : Z) :
  i < - Z.of_nat n ∨ Z.of_nat n ≤ i → axis_index n i = None.
Proof.
  intros Hi. unfold axis_index.
  destruct (Z.ltb_spec i (- Z.of_nat n)); [done|].
  destruct (Z.leb_spec (Z.of_nat n) i); [done | lia].
Qed.

(** A store either raises [IndexError] or returns a matrix of the same shape. *)
Lemma dok_setitem_cases (m : sparse) (i j : Z) (v : float) (out : stdout) :
  (∃ m', dok_setitem m i j v out = (Ret m', out) ∧ shape m' = shape m) ∨
  dok_setitem m i j v out = (Raise IndexError, out).
Proof.
  unfold dok_setitem.
  destruct (axis_index (shape m).1 i), (axis_index (shape m).2 j); eauto.
Qed.

Lemma set_features_marks (m : sparse) (row : nat) (features : list string)
    (out : stdout) :
  (row < (shape m).1)%nat →
  Forall (in_columns py_int (shape m).2) features →
  ∃ m', set_features float float_of_int py_int m row features out = (Ret m', out) ∧
        shape m' = shape m ∧
        ∀ i j, entries m' !! (i, j) =
               if bool_decide (i = row) && marks py_int features j then Some one
               else entries m !! (i, j).
Proof.
  intros Hrow. revert m Hrow.
  induction features as [|tok rest IH]; intros m Hrow Hall.
  - exists m. split; [done|]. split; [done|]. intros i j.
    by rewrite andb_false_r.
  - apply Forall_cons in Hall as [(k & Hk & Hrange) Hrest].
    cbn [set_features]. rewrite Hk. unfold dok_setitem.
    rewrite axis_index_inside by lia. rewrite axis_index_inside by lia.
    erewrite py_bind_Ret; [|reflexivity].
    edestruct (IH {| shape := shape m;
                     entries := <[(Z.to_nat (Z.of_nat row), Z.to_nat (k - 1)) := one]>
                                  (entries m) |}) as (m' & Hrun & Hshape & Hent);
      [done | done |].
    exists m'. split; [exact Hrun|]. split; [done|].
    intros i j. rewrite Hent. cbn [entries]. rewrite Nat2Z.id.
    change (marks py_int (tok :: rest) j)
      with (bool_decide (py_int tok = Some (Z.of_nat j + 1)) || marks py_int rest j).
    rewrite Hk.
    destruct (bool_decide (i = row)) eqn:Hi; cbn [andb].
    + apply bool_decide_eq_true in Hi as ->.
      destruct (marks py_int rest j); [by rewrite orb_true_r|]. rewrite orb_false_r.
      case_bool_decide as Hj.
      * injection Hj as ->.
        replace (Z.to_nat (Z.of_nat j + 1 - 1)) with j by lia.
        by rewrite lookup_insert_eq.
      * rewrite lookup_insert_ne; [done|]. intros [= Heq]. apply Hj.
        f_equal. lia.
    + apply bool_decide_eq_false in Hi.
      rewrite lookup_insert_ne; [done|]. intros [= Heq _]. by apply Hi.
Qed.

Lemma set_rows_marks (m : sparse) (row : nat) (data : list (list string))
    (out : stdout) :
  (row + length data ≤ (shape m).1)%nat →
  Forall (Forall (in_columns py_int (shape m).2)) data →
  ∃ m', set_rows float float_of_int py_int m row data out = (Ret m', out) ∧
        shape m' = shape m ∧
        ∀ i j, entries m' !! (i, j) =
               if bool_decide (row ≤ i)%nat && marks py_int (default [] (data !! (i - row)%nat)) j
               then Some one
               else entries m !! (i, j).
Proof.
  revert m row. induction data as [|features rest IH]; intros m row Hrows Hall.
  - exists m. split; [done|]. split; [done|]. intros i j.
    by rewrite andb_false_r.
  - apply Forall_cons in Hall as [Hfeatures Hrest]. simpl in Hrows. simpl.
    destruct (set_features_marks m row features out) as (m1 & Hrun1 & Hshape1 & Hent1);
      [lia | done |].
    erewrite py_bind_Ret; [|exact Hrun1].
    destruct (IH m1 (S row)) as (m' & Hrun & Hshape & Hent).
    { rewrite Hshape1. lia. }
    { by rewrite Hshape1. }
    exists m'. split; [exact Hrun|]. split; [congruence|].
    intros i j. rewrite Hent, Hent1.
    destruct (decide (i = row)) as [->|Hne].
    + rewrite (bool_decide_eq_false_2 (S row ≤ row)%nat) by lia.
      rewrite !bool_decide_eq_true_2 by (done || lia).
      by rewrite Nat.sub_diag.
    + rewrite (bool_decide_eq_false_2 (i = row)) by done. simpl.
      destruct (decide (row ≤ i)%nat) as [Hle|Hgt].
      * rewrite !bool_decide_eq_true_2 by lia.
        by replace (i - row)%nat with (S (i - S row)) by lia.
      * by rewrite !bool_decide_eq_false_2 by lia.
Qed.

(** A token whose column falls outside [-ncols, ncols) makes the row fail. *)
Lemma set_features_outside (m : sparse) (row : nat) (features : list string)
    (tok : string) (k : Z) (out : stdout) :
  tok ∈ features → py_int tok = Some k →
  (k > Z.of_nat (shape m).2 ∨ k < 1 - Z.of_nat (shape m).2) →
  ∃ e, set_features float float_of_int py_int m row features out = (Raise e, out).
Proof.
  intros Hin Hk Hout. revert m Hout.
  induction features as [|tok' rest IH]; intros m Hout; [by inversion Hin|].
  simpl. destruct (py_int tok') as [k'|] eqn:Hk'; [|by eexists].
  destruct (dok_setitem_cases m (Z.of_nat row) (k' - 1) one out)
    as [(m1 & Hrun & Hshape) | Hraise].
  - erewrite py_bind_Ret; [|exact Hrun].
    apply elem_of_cons in Hin as [<- | Hin].
    + exfalso. assert (k' = k) as -> by congruence.
      unfold dok_setitem in Hrun.
      rewrite (axis_index_outside _ (k - 1)) in Hrun by lia.
      by destruct (axis_index _ (Z.of_nat row)).
    + apply IH; [done|]. by rewrite Hshape.
  - erewrite py_bind_Raise; [|exact Hraise]. by eexists.
Qed.

Lemma set_features_cases (m : sparse) (row : nat) (features : list string)
    (out : stdout) :
  (∃ m', set_features float float_of_int py_int m row features out = (Ret m', out)
         ∧ shape m' = shape m) ∨
  (∃ e, set_features float float_of_int py_int m row features out = (Raise e, out)).
Proof.
  revert m. induction features as [|tok rest IH]; intros m; [left; by eexists|].
  simpl. destruct (py_int tok) as [k|]; [|right; by eexists].
  destruct (dok_setitem_cases m (Z.of_nat row) (k - 1) one out)
    as [(m1 & Hrun & Hshape) | Hraise].
  - erewrite py_bind_Ret; [|exact Hrun].
    destruct (IH m1) as [(m' & Hrun' & Hshape') | Hraise]; [left|by right].
    exists m'. split; [done | congruence].
  - right. erewrite py_bind_Raise; [|exact Hraise]. by eexists.
Qed.

Lemma set_rows_outside (m : sparse) (row : nat) (data : list (list string))
    (features : list string) (tok : string) (k : Z) (out : stdout) :
  features ∈ data → tok ∈ features → py_int tok = Some k →
  (k > Z.of_nat (shape m).2 ∨ k < 1 - Z.of_nat (shape m).2) →
  ∃ e, set_rows float float_of_int py_int m row data out = (Raise e, out).
Proof.
  intros Hrow Hin Hk. revert m row.
  induction data as [|features' rest IH]; intros m row Hout; [by inversion Hrow|].
  simpl. apply elem_of_cons in Hrow as [<- | Hrow].
  - destruct (set_features_outside m row features tok k out Hin Hk Hout) as [e He].
    exists e. by erewrite py_bind_Raise.
  - destruct (set_features_cases m row features' out)
      as [(m1 & Hrun & Hshape) | [e He]].
    + erewrite py_bind_Ret; [|exact Hrun]. apply IH; [done|]. by rewrite Hshape.
    + exists e. by erewrite py_bind_Raise.
Qed.

End BinaryFacts.

(** ** Properties of the index:value loader *)

Section SparseFacts.
Variable float : Type.

Local Abbreviation sparse := (sparse float).

Lemma insert_pairs_values (m : sparse) (row : nat) (pairs : list (Z * float))
    (out : stdout) :
  Forall (pair_in_columns (shape m).2) pairs →
  ∃ m', insert_pairs float m row pairs out = (Ret m', out) ∧
        shape m' = shape m ∧
        ∀ i j, entries m' !! (i, j) =
               if bool_decide (i = row)
               then match last_value pairs (Z.of_nat j + 1) with
                    | Some v => Some v
                    | None => entries m !! (i, j)
                    end
               else entries m !! (i, j).
Proof.
  revert m. induction pairs as [|[k v] rest IH]; intros m Hall.
  - exists m. split; [done|]. split; [done|]. intros i j. by case_bool_decide.
  - apply Forall_cons in Hall as [Hk Hrest]. unfold pair_in_columns in Hk.
    simpl in Hk. cbn [insert_pairs].
    rewrite (proj2 (Z.leb_le 1 k)) by lia.
    rewrite (proj2 (Z.leb_le k _)) by lia. cbn [andb].
    edestruct (IH {| shape := shape m;
                     entries := <[(row, Z.to_nat (k - 1)) := v]> (entries m) |})
      as (m' & Hrun & Hshape & Hent); [done|].
    exists m'. split; [exact Hrun|]. split; [done|].
    intros i j. rewrite Hent. cbn [entries last_value].
    case_bool_decide as Hi.
    + subst i. destruct (last_value rest (Z.of_nat j + 1)); [done|].
      case_decide as Hj.
      * subst k. replace (Z.to_nat (Z.of_nat j + 1 - 1)) with j by lia.
        by rewrite lookup_insert_eq.
      * rewrite lookup_insert_ne; [done|]. intros [= Heq]. apply Hj. lia.
    + rewrite lookup_insert_ne; [done|]. intros [= Heq _]. by apply Hi.
Qed.

Lemma insert_rows_values (m : sparse) (row : nat)
    (sparse_list : list (list (Z * float))) (out : stdout) :
  Forall (Forall (pair_in_columns (shape m).2)) sparse_list →
  ∃ m', insert_rows float m row sparse_list out = (Ret m', out) ∧
        shape m' = shape m ∧
        ∀ i j, entries m' !! (i, j) =
               match
                 (if bool_decide (row ≤ i)%nat
                  then last_value (default [] (sparse_list !! (i - row)%nat))
                                  (Z.of_nat j + 1)
                  else None)
               with
               | Some v => Some v
               | None => entries m !! (i, j)
               end.
Proof.
  revert m row. induction sparse_list as [|pairs rest IH]; intros m row Hall.
  - exists m. split; [done|]. split; [done|]. intros i j. by case_bool_decide.
  - apply Forall_cons in Hall as [Hpairs Hrest]. cbn [insert_rows].
    destruct (insert_pairs_values m row pairs out Hpairs)
      as (m1 & Hrun1 & Hshape1 & Hent1).
    erewrite py_bind_Ret; [|exact Hrun1].
    destruct (IH m1 (S row)) as (m' & Hrun & Hshape & Hent).
    { by rewrite Hshape1. }
    exists m'. split; [exact Hrun|]. split; [congruence|].
    intros i j. rewrite Hent, Hent1.
    destruct (decide (i = row)) as [->|Hne].
    + rewrite (bool_decide_eq_false_2 (S row ≤ row)%nat) by lia.
      rewrite !bool_decide_eq_true_2 by (done || lia).
      by rewrite Nat.sub_diag.
    + rewrite (bool_decide_eq_false_2 (i = row)) by done.
      destruct (decide (row ≤ i)%nat) as [Hle|Hgt].
      * rewrite !bool_decide_eq_true_2 by lia.
        by replace (i - row)%nat with (S (i - S row)) by lia.
      * by rewrite !bool_decide_eq_false_2 by lia.
Qed.

Lemma insert_pairs_cases (m : sparse) (row : nat) (pairs : list (Z * float))
    (out : stdout) :
  (∃ m', insert_pairs float m row pairs out = (Ret m', out) ∧ shape m' = shape m) ∨
  insert_pairs float m row pairs out = (Raise IndexError, out).
Proof.
  revert m. induction pairs as [|[k v] rest IH]; intros m; [left; by eexists|].
  cbn [insert_pairs]. destruct (_ && _); [|by right].
  edestruct IH as [(m' & Hrun & Hshape) | Hraise]; [left|right; exact Hraise].
  exists m'. split; [exact Hrun | done].
Qed.

Lemma insert_pairs_outside (m : sparse) (row : nat) (pairs : list (Z * float))
    (k : Z) (v : float) (out : stdout) :
  (k, v) ∈ pairs → (k < 1 ∨ k > Z.of_nat (shape m).2) →
  insert_pairs float m row pairs out = (Raise IndexError, out).
Proof.
  intros Hin. revert m. induction pairs as [|[k' v'] rest IH]; intros m Hout;
    [by inversion Hin|].
  cbn [insert_pairs]. destruct (_ && _) eqn:Hinside; [|done].
  apply andb_true_iff in Hinside as [H1%Z.leb_le H2%Z.leb_le].
  apply elem_of_cons in Hin as [[= <- <-] | Hin]; [lia|].
  by apply IH.
Qed.

Lemma insert_rows_outside (m : sparse) (row : nat)
    (sparse_list : list (list (Z * float))) (pairs : list (Z * float))
    (k : Z) (v : float) (out : stdout) :
  pairs ∈ sparse_list → (k, v) ∈ pairs → (k < 1 ∨ k > Z.of_nat (shape m).2) →
  insert_rows float m row sparse_list out = (Raise IndexError, out).
Proof.
  intros Hrow Hin. revert m row.
  induction sparse_list as [|pairs' rest IH]; intros m row Hout;
    [by inversion Hrow|].
  cbn [insert_rows]. apply elem_of_cons in Hrow as [<- | Hrow].
  - erewrite py_bind_Raise; [done|]. by eapply insert_pairs_outside.
  - destruct (insert_pairs_cases m row pairs' out) as [(m1 & Hrun & Hshape) | Hraise].
    + erewrite py_bind_Ret; [|exact Hrun]. apply IH; [done|]. by rewrite Hshape.
    + by erewrite py_bind_Raise.
Qed.

End SparseFacts.

(** ** Properties of the two sparse loaders *)

Section ListFacts.
Context {A B : Type}.

Lemma Forall2_elem_of_l (R : A → B → Prop) (l : list A) (k : list B) (x : A) :
  Forall2 R l k → x ∈ l → ∃ y, y ∈ k ∧ R x y.
Proof.
  intros HR [i Hi]%list_elem_of_lookup_1.
  destruct (Forall2_lookup_l _ _ _ _ _ HR Hi) as (y & Hy & Hxy).
  exists y. split; [by eapply list_elem_of_lookup_2 | done].
Qed.

Lemma mapM_fmap_total (f : A → option B) (h : A → B) (l : list A) :
  (∀ x, x ∈ l → f x = Some (h x)) → mapM f l = Some (h <$> l).
Proof.
  induction l as [|x l IH]; intros Hf; [done|].
  cbn. rewrite (Hf x) by left. cbn. rewrite IH; [done|].
  intros y Hy. apply Hf. by right.
Qed.

Lemma mapM_omap_total (f : A → option B) (l : list A) :
  (∀ x, x ∈ l → is_Some (f x)) → mapM f l = Some (omap f l).
Proof.
  induction l as [|x l IH]; intros Hf; [done|].
  destruct (Hf x) as [y Hy]; [left|].
  cbn. rewrite Hy. cbn. rewrite IH; [done|].
  intros z Hz. apply Hf. by right.
Qed.

End ListFacts.

Section SparseLoaders.
Variable P : Platform.
Variable float : Type.
Variable float_of_int : Z → float.
Variable py_float : string → option float.
Variable py_int : string → option Z.

Lemma data_binary_sparse_run (filename text : string) (feat_type : list string)
    (out : stdout) :
  read P filename = Some text →
  data_binary_sparse P float float_of_int py_int filename feat_type out =
  py_bind
    (set_rows float float_of_int py_int
       (dok_matrix (length (Text.rows text), length feat_type)) 0 (Text.rows text))
    (λ dok_sparse,
       py_bind (print ("Converting " +:+ filename +:+ " to csr sparse matrix"))
               (λ _, py_ret (tocsr dok_sparse)))
    (out ++ ["Converting " +:+ filename +:+ " to dok sparse matrix"]).
Proof.
  intros Hread. unfold data_binary_sparse.
  erewrite py_bind_Ret; [|by apply file_to_array_run].
  by erewrite py_bind_Ret.
Qed.

Lemma sparse_file_to_sparse_list_run (filename text : string) (out : stdout) :
  read P filename = Some text →
  sparse_file_to_sparse_list P float py_float py_int filename out =
  (match mapM (mapM (parse_pair float py_float py_int)) (Text.rows text) with
   | Some sparse_list => Ret sparse_list
   | None => Raise ValueError
   end, out).
Proof.
  intros Hread. unfold sparse_file_to_sparse_list. rewrite Hread.
  by destruct (mapM _ _).
Qed.

End SparseLoaders.

Example binary_one_three :
  SparseExample.row_of (SparseExample.load_binary "binary.data" 4) 0 4
  = Some [1; 0; 1; 0]%Q.
Proof. vm_compute. reflexivity. Qed.

Example binary_zero_wraps :
  SparseExample.row_of (SparseExample.load_binary "binary_zero.data" 4) 0 4
  = Some [0; 0; 0; 1]%Q.
Proof. vm_compute. reflexivity. Qed.

Example binary_five_of_four :
  value (SparseExample.load_binary "binary_five.data" 4) = Raise IndexError.
Proof. vm_compute. reflexivity. Qed.

Example sparse_two_five :
  SparseExample.row_of (SparseExample.load_sparse "sparse.data" 5) 0 5
  = Some [0; 3; 0; 0; 3 # 2]%Q.
Proof. vm_compute. reflexivity. Qed.

Example sparse_six_of_five :
  value (SparseExample.load_sparse "sparse_six.data" 5) = Raise IndexError.
Proof. vm_compute. reflexivity. Qed.

(** C5. For a binary-indicator file whose tokens are all indices in
    [1, F], [data_binary_sparse] returns a matrix with one row per non-empty
    line and [F] columns; entry [(i, j)] is 1.0 when line [i] holds the index
    [j + 1] and 0.0 otherwise. *)
Theorem data_binary_sparse_indicator (P : Platform) (float : Type)
    (float_of_int : Z → float) (py_int : string → option Z)
    (filename text : string) (feat_type : list string) (out : stdout) :
  read P filename = Some text →
  (∀ row tok, row ∈ Text.rows text → tok ∈ row →
     ∃ k, py_int tok = Some k ∧ 1 ≤ k ≤ Z.of_nat (length feat_type)) →
  ∃ m out',
    data_binary_sparse P float float_of_int py_int filename feat_type out
    = (Ret m, out') ∧
    shape m = (length (Text.rows text), length feat_type) ∧
    (∀ i j row tok,
       Text.rows text !! i = Some row → tok ∈ row →
       py_int tok = Some (Z.of_nat j + 1) →
       sparse_get float_of_int m i j = float_of_int 1) ∧
    (∀ i j,
       (∀ row tok, Text.rows text !! i = Some row → tok ∈ row →
                   py_int tok ≠ Some (Z.of_nat j + 1)) →
       sparse_get float_of_int m i j = float_of_int 0).
Proof.
  intros Hread Hwf. rewrite (data_binary_sparse_run _ _ _ _ _ text) by done.
  edestruct (set_rows_marks float float_of_int py_int
               (dok_matrix (length (Text.rows text), length feat_type)) 0
               (Text.rows text)) as (m & Hrun & Hshape & Hent).
  { simpl. lia. }
  { apply Forall_forall. intros row Hrow. apply Forall_forall. intros tok Htok.
    by apply (Hwf row tok). }
  erewrite py_bind_Ret; [|exact Hrun].
  exists m. eexists. split; [reflexivity|]. split; [exact Hshape|].
  assert (∀ i j, sparse_get float_of_int m i j =
                 if marks py_int (default [] (Text.rows text !! i)) j
                 then float_of_int 1 else float_of_int 0) as Hget.
  { intros i j. unfold sparse_get. rewrite Hent.
    rewrite bool_decide_eq_true_2 by lia. rewrite Nat.sub_0_r. cbn [andb].
    by destruct (marks _ _ _). }
  split.
  - intros i j row tok Hi Htok Hk. rewrite Hget, Hi. cbn [from_option id].
    assert (marks py_int row j = true) as ->; [|done].
    apply existsb_exists. exists tok. split; [by apply list_elem_of_In|].
    by apply bool_decide_eq_true.
  - intros i j Hnone. rewrite Hget.
    destruct (marks py_int _ j) eqn:Hmarks; [|done]. exfalso.
    destruct (Text.rows text !! i) as [row|] eqn:Hi; [|done].
    apply existsb_exists in Hmarks as (tok & Htok%list_elem_of_In & Hk).
    apply bool_decide_eq_true in Hk. by apply (Hnone row tok).
Qed.

Lemma data_binary_sparse_indicator_witness :
  ∃ m out',
    SparseExample.load_binary "binary.data" 4 = (Ret m, out') ∧
    shape m = (1%nat, 4%nat) ∧
    sparse_get inject_Z m 0 0 = 1%Q ∧ sparse_get inject_Z m 0 1 = 0%Q ∧
    sparse_get inject_Z m 0 2 = 1%Q ∧ sparse_get inject_Z m 0 3 = 0%Q.
Proof.
  destruct (data_binary_sparse_indicator (Posix.platform SparseExample.files) Q
              inject_Z Decimal.int "binary.data" (Text.unlines ["1 3"])
              (replicate 4 "Numerical") [] eq_refl)
    as (m & out' & Hrun & Hshape & Hone & Hzero).
  { intros row tok Hrow Htok. vm_compute in Hrow.
    apply elem_of_cons in Hrow as [-> | Hrow]; [|by apply elem_of_nil in Hrow].
    apply elem_of_cons in Htok as [-> | Htok]; [exists 1; by vm_compute|].
    apply elem_of_cons in Htok as [-> | Htok]; [exists 3; by vm_compute|].
    by apply elem_of_nil in Htok. }
  assert (∀ j : nat, j ≠ 0%nat → j ≠ 2%nat →
            sparse_get inject_Z m 0 j = 0%Q) as Hother.
  { intros j Hj0 Hj2. apply Hzero. intros row tok [= <-] Htok.
    apply elem_of_cons in Htok as [-> | Htok].
    { change (Decimal.int "1") with (Some 1). intros [= Hj]. lia. }
    apply elem_of_cons in Htok as [-> | Htok].
    { change (Decimal.int "3") with (Some 3). intros [= Hj]. lia. }
    by apply elem_of_nil in Htok. }
  exists m, out'. split; [exact Hrun|]. split; [exact Hshape|].
  split; [|split; [|split]].
  - apply (Hone 0%nat 0%nat ["1"; "3"] "1"); [done | left | done].
  - by apply Hother.
  - apply (Hone 0%nat 2%nat ["1"; "3"] "3"); [done | right; left | done].
  - by apply Hother.
Defined.

(** C6, with the converter functions as the spec describes them. For an
    index:value file whose tokens all parse to pairs with an index in
    [1, F], [data_sparse] returns a matrix with one row per non-empty line and
    [F] columns; entry [(i, j)] is the value of the (last) pair of line [i]
    with index [j + 1], and 0.0 when the line has no such pair. *)
Theorem data_sparse_index_value (P : Platform) (float : Type)
    (float_of_int : Z → float) (py_float : string → option float)
    (py_int : string → option Z)
    (filename text : string) (feat_type : list string) (out : stdout) :
  read P filename = Some text →
  (∀ row tok, row ∈ Text.rows text → tok ∈ row →
     ∃ k v, parse_pair float py_float py_int tok = Some (k, v) ∧
            1 ≤ k ≤ Z.of_nat (length feat_type)) →
  ∃ m out',
    data_sparse P float py_float py_int filename feat_type out = (Ret m, out') ∧
    shape m = (length (Text.rows text), length feat_type) ∧
    ∀ i j,
      sparse_get float_of_int m i j =
      default (float_of_int 0)
        (last_value
           (omap (parse_pair float py_float py_int)
                 (default [] (Text.rows text !! i)))
           (Z.of_nat j + 1)).
Proof.
  intros Hread Hwf. unfold data_sparse.
  set (parse := parse_pair float py_float py_int).
  assert (mapM (mapM parse) (Text.rows text) = Some (@omap list _ _ _ parse <$> Text.rows text))
    as Hparsed.
  { apply mapM_fmap_total. intros row Hrow. apply mapM_omap_total.
    intros tok Htok. destruct (Hwf row tok Hrow Htok) as (k & v & Hkv & _).
    by exists (k, v). }
  erewrite py_bind_Ret.
  2:{ rewrite (sparse_file_to_sparse_list_run _ _ _ _ _ text) by done.
      fold parse. by rewrite Hparsed. }
  unfold sparse_list_to_csr_sparse. rewrite length_fmap.
  edestruct (insert_rows_values float
               (dok_matrix (length (Text.rows text), length feat_type)) 0
               (@omap list _ _ _ parse <$> Text.rows text)) as (m & Hrun & Hshape & Hent).
  { apply Forall_forall. intros pairs (row & -> & Hrow)%list_elem_of_fmap.
    apply Forall_forall. intros [k v] (tok & Htok & Hkv)%list_elem_of_omap.
    destruct (Hwf row tok Hrow Htok) as (k' & v' & Hkv' & Hrange).
    unfold pair_in_columns. simpl. fold parse in Hkv'. congruence. }
  exists m, out. split; [exact Hrun|]. split; [exact Hshape|].
  intros i j. unfold sparse_get. rewrite Hent.
  rewrite bool_decide_eq_true_2 by lia. rewrite Nat.sub_0_r.
  rewrite list_lookup_fmap. cbn [entries dok_matrix]. rewrite lookup_empty.
  destruct (Text.rows text !! i) as [row|]; simpl.
  - by destruct (last_value _ _).
  - done.
Qed.

Lemma data_sparse_index_value_witness :
  ∃ m out',
    SparseExample.load_sparse "sparse.data" 5 = (Ret m, out') ∧
    shape m = (1%nat, 5%nat) ∧
    sparse_get inject_Z m 0 0 = 0%Q ∧ sparse_get inject_Z m 0 1 = 3%Q ∧
    sparse_get inject_Z m 0 2 = 0%Q ∧ sparse_get inject_Z m 0 3 = 0%Q ∧
    sparse_get inject_Z m 0 4 = (3 # 2)%Q.
Proof.
  destruct (data_sparse_index_value (Posix.platform SparseExample.files) Q
              inject_Z Decimal.float Decimal.int "sparse.data"
              (Text.unlines ["2:3.0 5:1.5"]) (replicate 5 "Numerical") [] eq_refl)
    as (m & out' & Hrun & Hshape & Hget).
  { intros row tok Hrow Htok. vm_compute in Hrow.
    apply elem_of_cons in Hrow as [-> | Hrow]; [|by apply elem_of_nil in Hrow].
    apply elem_of_cons in Htok as [-> | Htok];
      [exists 2, 3%Q; by vm_compute|].
    apply elem_of_cons in Htok as [-> | Htok];
      [exists 5, (3 # 2)%Q; by vm_compute|].
    by apply elem_of_nil in Htok. }
  exists m, out'. split; [exact Hrun|]. split; [exact Hshape|].
  rewrite !Hget. by vm_compute.
Defined.

(** C4, as the code has it for the binary loader and as the spec has it for
    the index:value loader. A binary-indicator token whose 1-based index is
    greater than [F] or smaller than [1 - F] makes [data_binary_sparse] raise,
    and an index:value token whose index lies outside [1, F] makes
    [data_sparse] raise; in both cases no matrix is returned. *)
Theorem sparse_loaders_reject_far_index (P : Platform) (float : Type)
    (float_of_int : Z → float) (py_float : string → option float)
    (py_int : string → option Z)
    (filename text : string) (feat_type : list string) (out : stdout)
    (row : list string) (tok : string) :
  read P filename = Some text →
  row ∈ Text.rows text → tok ∈ row →
  (∀ k, py_int tok = Some k →
        (k > Z.of_nat (length feat_type) ∨ k < 1 - Z.of_nat (length feat_type)) →
        ∃ e out',
          data_binary_sparse P float float_of_int py_int filename feat_type out
          = (Raise e, out'))
  ∧ (∀ k v, parse_pair float py_float py_int tok = Some (k, v) →
            (k < 1 ∨ k > Z.of_nat (length feat_type)) →
            ∃ e out',
              data_sparse P float py_float py_int filename feat_type out
              = (Raise e, out')).
Proof.
  intros Hread Hrow Htok. split.
  - intros k Hk Hout. rewrite (data_binary_sparse_run _ _ _ _ _ text) by done.
    edestruct (set_rows_outside float float_of_int py_int
                 (dok_matrix (length (Text.rows text), length feat_type)) 0
                 (Text.rows text) row tok k) as [e He]; [done..|].
    exists e. eexists. by erewrite py_bind_Raise.
  - intros k v Hkv Hout. unfold data_sparse.
    destruct (mapM (mapM (parse_pair float py_float py_int)) (Text.rows text))
      as [sparse_list|] eqn:Hparsed.
    + erewrite py_bind_Ret.
      2:{ rewrite (sparse_file_to_sparse_list_run _ _ _ _ _ text) by done.
          by rewrite Hparsed. }
      apply mapM_Some in Hparsed.
      destruct (Forall2_elem_of_l _ _ _ _ Hparsed Hrow) as (pairs & Hpairs & Hmap).
      apply mapM_Some in Hmap.
      destruct (Forall2_elem_of_l _ _ _ _ Hmap Htok) as (p & Hp & Hparse).
      assert (p = (k, v)) as -> by congruence.
      exists IndexError, out. by eapply insert_rows_outside.
    + exists ValueError, out. erewrite py_bind_Raise; [done|].
      rewrite (sparse_file_to_sparse_list_run _ _ _ _ _ text) by done.
      by rewrite Hparsed.
Qed.

Lemma sparse_loaders_reject_far_index_witness :
  (∃ e out', SparseExample.load_binary "binary_five.data" 4 = (Raise e, out'))
  ∧ (∃ e out', SparseExample.load_sparse "sparse_six.data" 5 = (Raise e, out')).
Proof.
  split.
  - apply (proj1 (sparse_loaders_reject_far_index
                    (Posix.platform SparseExample.files) Q inject_Z Decimal.float
                    Decimal.int "binary_five.data" (Text.unlines ["1 3"; "5"])
                    (replicate 4 "Numerical") [] ["5"] "5" eq_refl
                    ltac:(vm_compute; right; left) ltac:(left)) 5).
    + reflexivity.
    + left. simpl. lia.
  - apply (proj2 (sparse_loaders_reject_far_index
                    (Posix.platform SparseExample.files) Q inject_Z Decimal.float
                    Decimal.int "sparse_six.data" (Text.unlines ["2:3.0 6:1.5"])
                    (replicate 5 "Numerical") [] ["2:3.0"; "6:1.5"] "6:1.5" eq_refl
                    ltac:(vm_compute; left) ltac:(right; left)) 6 (3 # 2)%Q).
    + reflexivity.
    + right. simpl. lia.
Defined.

(** C4, as stated, fails for the binary loader: the index 0 is not rejected.
    It is stored at column [-1], which the matrix takes as its last column. *)
Lemma data_binary_sparse_accepts_index_zero :
  value (SparseExample.load_binary "binary_zero.data" 4)
  = Ret {| shape := (1%nat, 4%nat); entries := {[ (0%nat, 3%nat) := 1%Q ]} |}.
Proof. vm_compute. reflexivity. Qed.

Example copy_results_a_b :
  Results.run ["a"; "b"] true Results.only_a =
  (Ret (0, {| files := ["res/a_test.predict"; "res/a_valid.predict";
                       "out/a_test.predict"; "out/a_valid.predict"];
              copied := [("res/a_test.predict", "out");
                         ("res/a_valid.predict", "out")] |}),
   ["[+] A copied"; "[-] Missing 'test' result files for b"]).
Proof. vm_compute. reflexivity. Qed.

Example copy_results_b_a :
  Results.run ["b"; "a"] true Results.only_a =
  (Ret (0, Results.start Results.only_a), ["[-] Missing 'test' result files for b"]).
Proof. vm_compute. reflexivity. Qed.

Example copy_results_a :
  value (Results.run ["a"] false Results.only_a) =
  Ret (1, {| files := ["res/a_test.predict"; "res/a_valid.predict";
                       "out/a_test.predict"; "out/a_valid.predict"];
             copied := [("res/a_test.predict", "out");
                        ("res/a_valid.predict", "out")] |}).
Proof. vm_compute. reflexivity. Qed.

(** ** Properties of the result copier *)

Section CopyResultsFacts.
Variable FS : Type.
Variable glob_in : FS → string → list string.
Variable copy2 : string → string → FS → option FS.
Variables result_dir output_dir : string.
Variable verbose : bool.

Local Abbreviation body := (λ basename,
  copy_basename FS glob_in copy2 basename result_dir output_dir verbose).
Local Abbreviation run := (λ datanames,
  copy_results FS glob_in copy2 datanames result_dir output_dir verbose).

Lemma vprint_run (t : string) (out : stdout) :
  vprint verbose t out = (Ret (), out ++ if verbose then [t] else []).
Proof. unfold vprint, when, print, py_ret. destruct verbose; [done|]. by rewrite app_nil_r. Qed.

Lemma length_zero_iff {A} (l : list A) : (length l =? 0)%nat = true ↔ l = [].
Proof. destruct l; simpl; split; (done || congruence). Qed.

(** The body never raises: every exception is caught by its [except]. *)
Lemma copy_basename_returns (basename : string) (w : world FS) (out : stdout) :
  ∃ go_on w' out', body basename w out = (Ret (go_on, w'), out').
Proof.
  unfold copy_basename.
  destruct (_ =? _)%nat.
  { erewrite py_bind_Ret; [|apply vprint_run]. by eexists _, _, _. }
  destruct (copy_files _ _ _ _ w) as [w1 [|]].
  2:{ erewrite py_bind_Ret; [|apply vprint_run]. by eexists _, _, _. }
  destruct (_ =? _)%nat.
  { erewrite py_bind_Ret; [|apply vprint_run]. by eexists _, _, _. }
  destruct (copy_files _ _ _ _ w1) as [w2 [|]];
    (erewrite py_bind_Ret; [|apply vprint_run]); by eexists _, _, _.
Qed.

Lemma copy_results_returns (datanames : list string) (w : world FS) (out : stdout) :
  ∃ r w' out', run datanames w out = (Ret (r, w'), out') ∧ (r = 0 ∨ r = 1).
Proof.
  revert w out. induction datanames as [|basename rest IH]; intros w out.
  - exists 1, w, out. split; [done | by right].
  - cbn [copy_results].
    destruct (copy_basename_returns basename w out) as ([|] & w1 & out1 & Hbody);
      (erewrite py_bind_Ret; [|exact Hbody]); cbn [fst snd].
    + apply IH.
    + exists 0, w1, out1. split; [done | by left].
Qed.

Lemma copy_results_app (datanames rest : list string) (w : world FS) (out : stdout) :
  run (datanames ++ rest) w out =
  match run datanames w out with
  | (Ret (1, w'), out') => run rest w' out'
  | other => other
  end.
Proof.
  revert w out. induction datanames as [|basename names IH]; intros w out; [done|].
  cbn [app copy_results].
  destruct (copy_basename_returns basename w out) as ([|] & w1 & out1 & Hbody);
    (erewrite !py_bind_Ret; [|exact Hbody..]); cbn [fst snd].
  - apply IH.
  - done.
Qed.

Lemma copy_basename_no_test (basename : string) (w : world FS) (out : stdout) :
  glob_in (files w) (test_pattern result_dir basename) = [] →
  body basename w out =
  (Ret (false, w),
   out ++ if verbose then ["[-] Missing 'test' result files for " +:+ basename] else []).
Proof.
  unfold copy_basename, test_pattern. intros ->. cbn [length Nat.eqb].
  erewrite py_bind_Ret; [|apply vprint_run]. done.
Qed.

Lemma copy_basename_no_valid (basename : string) (w w1 : world FS) (out : stdout) :
  glob_in (files w) (test_pattern result_dir basename) ≠ [] →
  copy_files FS copy2 (glob_in (files w) (test_pattern result_dir basename)) output_dir w
  = (w1, true) →
  glob_in (files w1) (valid_pattern result_dir basename) = [] →
  body basename w out =
  (Ret (false, w1),
   out ++ if verbose then ["[-] Missing 'valid' result files for " +:+ basename] else []).
Proof.
  unfold copy_basename, test_pattern, valid_pattern. intros Htest Hcopy Hvalid.
  destruct (_ =? _)%nat eqn:Hlen; [by apply length_zero_iff in Hlen|].
  rewrite Hcopy, Hvalid. cbn [length Nat.eqb].
  erewrite py_bind_Ret; [|apply vprint_run]. done.
Qed.

Lemma copy_basename_both (basename : string) (w w1 w2 : world FS) (out : stdout) :
  glob_in (files w) (test_pattern result_dir basename) ≠ [] →
  copy_files FS copy2 (glob_in (files w) (test_pattern result_dir basename)) output_dir w
  = (w1, true) →
  glob_in (files w1) (valid_pattern result_dir basename) ≠ [] →
  copy_files FS copy2 (glob_in (files w1) (valid_pattern result_dir basename)) output_dir w1
  = (w2, true) →
  body basename w out =
  (Ret (true, w2),
   out ++ if verbose then ["[+] " +:+ PyStr.capitalize basename +:+ " copied"] else []).
Proof.
  unfold copy_basename, test_pattern, valid_pattern.
  intros Htest Hcopy Hvalid Hcopy'.
  destruct (_ =? _)%nat eqn:Hlen; [by apply length_zero_iff in Hlen|].
  rewrite Hcopy.
  destruct (length (glob_in (files w1) _) =? 0)%nat eqn:Hlen';
    [by apply length_zero_iff in Hlen'|].
  rewrite Hcopy'. erewrite py_bind_Ret; [|apply vprint_run]. done.
Qed.

End CopyResultsFacts.

(** C2, as the code has it. [copy_results] gives one flag for the whole list,
    not one per dataset, and it stops at the first dataset that fails:
    - it always returns 0 or 1;
    - once it has returned 0 on a list, any datasets listed after are never
      processed: the flag, the files copied and the messages are unchanged;
    - while it returns 1 it goes on with the datasets that follow;
    - a dataset whose test glob is empty makes it return 0 with nothing
      copied for that dataset;
    - a dataset whose valid glob is empty makes it return 0 after the test
      files of that dataset have been copied;
    - a dataset with matches for both globs has all of them copied, and a
      list of this dataset alone returns 1. *)
Theorem copy_results_stops_at_first_failure (FS : Type)
    (glob_in : FS → string → list string) (copy2 : string → string → FS → option FS)
    (result_dir output_dir : string) (verbose : bool) :
  let run := λ datanames,
    copy_results FS glob_in copy2 datanames result_dir output_dir verbose in
  let copy := λ pattern w,
    copy_files FS copy2 (glob_in (files w) pattern) output_dir w in
  (∀ datanames w out,
     ∃ r w' out', run datanames w out = (Ret (r, w'), out') ∧ (r = 0 ∨ r = 1))
  ∧ (∀ datanames rest w out w' out',
       run datanames w out = (Ret (0, w'), out') →
       run (datanames ++ rest) w out = (Ret (0, w'), out'))
  ∧ (∀ datanames rest w out w' out',
       run datanames w out = (Ret (1, w'), out') →
       run (datanames ++ rest) w out = run rest w' out')
  ∧ (∀ basename rest w out,
       glob_in (files w) (test_pattern result_dir basename) = [] →
       ∃ out', run (basename :: rest) w out = (Ret (0, w), out'))
  ∧ (∀ basename rest w out w1,
       glob_in (files w) (test_pattern result_dir basename) ≠ [] →
       copy (test_pattern result_dir basename) w = (w1, true) →
       glob_in (files w1) (valid_pattern result_dir basename) = [] →
       ∃ out', run (basename :: rest) w out = (Ret (0, w1), out'))
  ∧ (∀ basename w out w1 w2,
       glob_in (files w) (test_pattern result_dir basename) ≠ [] →
       copy (test_pattern result_dir basename) w = (w1, true) →
       glob_in (files w1) (valid_pattern result_dir basename) ≠ [] →
       copy (valid_pattern result_dir basename) w1 = (w2, true) →
       ∃ out', run [basename] w out = (Ret (1, w2), out')).
Proof.
  intros run copy. unfold run, copy. repeat split.
  - apply copy_results_returns.
  - intros datanames rest w out w' out' Hrun.
    by rewrite copy_results_app, Hrun.
  - intros datanames rest w out w' out' Hrun.
    by rewrite copy_results_app, Hrun.
  - intros basename rest w out Htest. cbn [copy_results].
    erewrite py_bind_Ret; [|by apply copy_basename_no_test]. by eexists.
  - intros basename rest w out w1 Htest Hcopy Hvalid. cbn [copy_results].
    erewrite py_bind_Ret; [|by eapply copy_basename_no_valid]. by eexists.
  - intros basename w out w1 w2 Htest Hcopy Hvalid Hcopy'. cbn [copy_results].
    erewrite py_bind_Ret; [|by eapply copy_basename_both]. by eexists.
Qed.

Lemma copy_results_stops_at_first_failure_witness :
  Results.run ["b"; "a"] true Results.only_a
  = (Ret (0, Results.start Results.only_a), ["[-] Missing 'test' result files for b"])
  ∧ Results.run ["a"; "b"] true Results.only_a
    = (Ret (0, {| files := ["res/a_test.predict"; "res/a_valid.predict";
                           "out/a_test.predict"; "out/a_valid.predict"];
                  copied := [("res/a_test.predict", "out");
                             ("res/a_valid.predict", "out")] |}),
       ["[+] A copied"; "[-] Missing 'test' result files for b"]).
Proof.
  destruct (copy_results_stops_at_first_failure (list string) Results.glob_in
              Results.copy2 "res" "out" true)
    as (_ & Hstop & Hgo & _ & _ & _).
  split.
  - apply (Hstop ["b"] ["a"] (Results.start Results.only_a) []).
    vm_compute. reflexivity.
  - etrans.
    + apply (Hgo ["a"] ["b"] (Results.start Results.only_a) []
               {| files := ["res/a_test.predict"; "res/a_valid.predict";
                            "out/a_test.predict"; "out/a_valid.predict"];
                  copied := [("res/a_test.predict", "out");
                             ("res/a_valid.predict", "out")] |}
               ["[+] A copied"]).
      vm_compute. reflexivity.
    + vm_compute. reflexivity.
Defined.

(** C2, as stated, fails. With names ["b"; "a"] where only [a] has both
    prediction files, [a] is never processed: nothing is copied. And a dataset
    with a test prediction but no valid one has its test file copied although
    the call returns 0. *)
Lemma copy_results_skips_later_datasets :
  (Results.glob_in Results.only_a "res/a*_test*.predict" ≠ []
   ∧ Results.glob_in Results.only_a "res/a*_valid*.predict" ≠ [])
  ∧ value (Results.run ["b"; "a"] false Results.only_a)
    = Ret (0, {| files := Results.only_a; copied := [] |})
  ∧ value (Results.run ["c"] false Results.half_c)
    = Ret (0, {| files := ["res/c_test.predict"; "out/c_test.predict"];
                 copied := [("res/c_test.predict", "out")] |}).
Proof.
  split; [split; vm_compute; discriminate|].
  split; vm_compute; reflexivity.
Qed.

(** * Further properties of the module *)

(** ** More about the name decoded from a path *)

Section MoreStringFacts.

Lemma rev_involutive_str (s : string) : String.rev (String.rev s) = s.
Proof.
  induction s as [|x s IH]; [done|].
  by rewrite rev_cons, rev_app_distr, IH.
Qed.

Lemma index_rev_None_iff (c : ascii) (s : string) :
  PyStr.index c (String.rev s) = None ↔ PyStr.index c s = None.
Proof.
  split; [|apply index_rev_None].
  intros H%index_rev_None. by rewrite rev_involutive_str in H.
Qed.

(** The first occurrence of a character splits the string around it. *)
Lemma index_Some_split (c : ascii) (s : string) (i : nat) :
  PyStr.index c s = Some i →
  ∃ a b, s = a +:+ String c b ∧ String.length a = i ∧ PyStr.index c a = None.
Proof.
  revert i. induction s as [|x s IH]; intros i; [done|]. simpl.
  case_decide as Hx.
  - intros [= <-]. exists EmptyString, s. by subst.
  - destruct (PyStr.index c s) as [k|]; [|done]. intros [= <-].
    destruct (IH k eq_refl) as (a & b & -> & Hlen & Ha).
    exists (String x a), b. split; [done|]. split; [simpl; by f_equal|].
    simpl. by rewrite decide_False, Ha.
Qed.

Lemma index_substring_None (c : ascii) (s : string) (k : nat) :
  PyStr.index c s = None → PyStr.index c (String.substring 0 k s) = None.
Proof.
  revert k. induction s as [|x s IH]; intros k; [by destruct k|].
  simpl. case_decide; [done|]. intros Hs.
  destruct k as [|k]; [done|]. simpl. rewrite decide_False by done.
  rewrite IH; [done|]. by destruct (PyStr.index c s).
Qed.

End MoreStringFacts.

(** X1. The decoding raises [ValueError] exactly when the path holds no
    separator or no underscore; in every other case it returns a name. It
    never prints. *)
Theorem name_from_path_raises_iff (P : Platform) (name : string) (out : stdout) :
  (name_from_path P name out = (Raise ValueError, out) ↔
   PyStr.index (filesep P) name = None ∨ PyStr.index "_"%char name = None)
  ∧ ((∃ n, name_from_path P name out = (Ret n, out)) ↔
     PyStr.index (filesep P) name ≠ None ∧ PyStr.index "_"%char name ≠ None).
Proof.
  rewrite name_from_path_decoded. unfold decoded, PyStr.rev.
  destruct (PyStr.index (filesep P) (String.rev name)) as [i|] eqn:Hi;
    destruct (PyStr.index "_"%char (String.rev name)) as [j|] eqn:Hj; simpl.
  - assert (PyStr.index (filesep P) name ≠ None) as Hi'.
    { intros H%index_rev_None. congruence. }
    assert (PyStr.index "_"%char name ≠ None) as Hj'.
    { intros H%index_rev_None. congruence. }
    split; split; [done | by intros [?|?] | done | by eexists].
  - apply (proj1 (index_rev_None_iff _ _)) in Hj.
    split; split; [intros _; by right | done | by intros [? [=]] | by intros [_ ?]].
  - apply (proj1 (index_rev_None_iff _ _)) in Hi.
    split; split; [intros _; by left | done | by intros [? [=]] | by intros [? _]].
  - apply (proj1 (index_rev_None_iff _ _)) in Hi.
    split; split; [intros _; by left | done | by intros [? [=]] | by intros [? _]].
Qed.

(** X2. For a path that does not end with the separator, the decoded name
    holds no separator: it lies inside the file name of the path. *)
Theorem name_from_path_no_separator (P : Platform) (name n : string) (out out' : stdout) :
  (∀ s, name ≠ s +:+ String (filesep P) EmptyString) →
  name_from_path P name out = (Ret n, out') →
  PyStr.index (filesep P) n = None.
Proof.
  intros Hend. rewrite name_from_path_decoded. unfold decoded, PyStr.rev.
  destruct (PyStr.index (filesep P) (String.rev name)) as [i|] eqn:Hi; [|done].
  destruct (PyStr.index "_"%char (String.rev name)) as [j|]; [|done].
  simpl. intros [= <- _].
  destruct (index_Some_split _ _ _ Hi) as (a & b & Hrev & Hlen & Ha).
  assert (name = (String.rev b +:+ String (filesep P) EmptyString) +:+ String.rev a)
    as Hname.
  { rewrite <- (rev_involutive_str name), Hrev.
    by rewrite rev_app_distr, rev_cons. }
  assert (i ≠ 0%nat) as Hi0.
  { intros ->. destruct a; [|done]. apply (Hend (String.rev b)).
    by rewrite Hname, app_nil_r_str. }
  apply index_rev_None in Ha.
  unfold PyStr.slice, PyStr.slice_bound.
  rewrite (proj2 (Z.ltb_lt _ 0)) by lia.
  rewrite (proj2 (Z.ltb_lt _ 0)) by lia.
  assert (String.length name
          = (String.length (String.rev b +:+ String (filesep P) EmptyString) + i)%nat)
    as Hlen'.
  { rewrite Hname at 1. by rewrite length_app, length_rev, Hlen. }
  replace (Z.to_nat (Z.max 0 (Z.of_nat (String.length name) + - Z.of_nat i)))
    with (String.length (String.rev b +:+ String (filesep P) EmptyString)) by lia.
  rewrite Hname, substring_skip. by apply index_substring_None.
Qed.

Lemma name_from_path_no_separator_witness :
  name_from_path (Posix.platform []) "d/e_f/a_b_train.data" [] = (Ret "a_b", [])
  ∧ PyStr.index (filesep (Posix.platform [])) "a_b" = None.
Proof.
  split; [reflexivity|].
  apply (name_from_path_no_separator (Posix.platform []) "d/e_f/a_b_train.data"
           "a_b" [] []).
  - intros s Hs.
    assert (PyStr.rev "d/e_f/a_b_train.data" = PyStr.rev (s +:+ "/")) as Hrev
      by (by rewrite Hs).
    unfold PyStr.rev in Hrev. rewrite rev_app_distr in Hrev. discriminate.
  - reflexivity.
Defined.

Section AnySuffix.
Variable P : Platform.
Variables dir name suffix : string.
Hypothesis Hname : PyStr.index (filesep P) name = None.
Hypothesis Hsuffix : PyStr.index (filesep P) suffix = None.
Hypothesis Hunderscore : PyStr.index "_"%char suffix = None.

Local Abbreviation path := (dir +:+ String (filesep P) (name +:+ String "_" suffix)).

Lemma rev_suffixed_path :
  PyStr.rev path =
  String.rev suffix
  +:+ String "_" (String.rev name +:+ String (filesep P) (String.rev dir)).
Proof.
  unfold PyStr.rev.
  rewrite rev_app_distr, rev_cons, rev_app_distr, rev_cons.
  by rewrite !app_assoc_str.
Qed.

Lemma filesep_not_underscore : "_"%char ≠ filesep P.
Proof. destruct (filesep_cases P) as [-> | ->]; discriminate. Qed.

Lemma index_filesep_suffixed_path :
  PyStr.index (filesep P) (PyStr.rev path)
  = Some (String.length suffix + 1 + String.length name)%nat.
Proof.
  rewrite rev_suffixed_path, index_app, (index_rev_None _ _ Hsuffix).
  cbn [PyStr.index]. rewrite decide_False by apply filesep_not_underscore.
  rewrite index_app, (index_rev_None _ _ Hname), !length_rev.
  cbn [PyStr.index]. rewrite decide_True by done. simpl. f_equal. lia.
Qed.

Lemma index_underscore_suffixed_path :
  PyStr.index "_"%char (PyStr.rev path) = Some (String.length suffix).
Proof.
  rewrite rev_suffixed_path, index_app, (index_rev_None _ _ Hunderscore).
  cbn [PyStr.index]. rewrite decide_True by done. simpl. rewrite length_rev.
  f_equal. lia.
Qed.

Lemma slice_suffixed_path :
  PyStr.slice path
    (- Z.of_nat (String.length suffix + 1 + String.length name))
    (- Z.of_nat (String.length suffix) - 1) = name.
Proof.
  unfold PyStr.slice, PyStr.slice_bound.
  rewrite length_app. cbn [String.length]. rewrite length_app.
  cbn [String.length].
  set (d := String.length dir). set (n := String.length name).
  set (x := String.length suffix).
  rewrite (proj2 (Z.ltb_lt _ 0)) by lia.
  rewrite (proj2 (Z.ltb_lt _ 0)) by lia.
  replace (Z.to_nat (Z.max 0 _))
    with (String.length (dir +:+ String (filesep P) EmptyString))
    by (rewrite length_app; simpl; lia).
  match goal with
  | |- String.substring _ (Z.to_nat ?k) _ = _ =>
      replace (Z.to_nat k) with n by lia
  end.
  replace path
    with ((dir +:+ String (filesep P) EmptyString) +:+ (name +:+ String "_" suffix))
    by (by rewrite app_assoc_str).
  rewrite substring_skip. apply substring_prefix.
Qed.

End AnySuffix.

(** X3. The decoding does not depend on the suffix being [train.data]: a path
    [<dir><separator><name>_<suffix>] decodes to [<name>] for every suffix
    without underscore and separator, such as [valid.data] or
    [train.solution]. *)
Theorem name_from_path_any_suffix (P : Platform) (dir name suffix : string)
    (out : stdout) :
  PyStr.index (filesep P) name = None →
  PyStr.index (filesep P) suffix = None →
  PyStr.index "_"%char suffix = None →
  name_from_path P (dir +:+ String (filesep P) (name +:+ String "_" suffix)) out
  = (Ret name, out).
Proof.
  intros Hname Hsuffix Hunderscore. unfold name_from_path.
  rewrite (index_filesep_suffixed_path P dir name suffix Hname Hsuffix).
  rewrite (index_underscore_suffixed_path P dir name suffix Hunderscore).
  unfold py_ret. by rewrite slice_suffixed_path.
Qed.

Lemma name_from_path_any_suffix_witness :
  name_from_path (Posix.platform []) "in/my_set/my_set_valid.data" []
  = (Ret "my_set", []).
Proof.
  apply (name_from_path_any_suffix (Posix.platform []) "in/my_set" "my_set"
           "valid.data" []); reflexivity.
Defined.

(** ** More about the inventory *)

Section MoreScanFacts.
Variable P : Platform.

Lemma inventory_loop_raise dir_of (paths : list string) (out out' : stdout) (e : exn) :
  inventory_loop P dir_of paths out = (Raise e, out') →
  (e = ValueError ∧ out' = out) ∨
  (e = SystemExit 1 ∧
   ∃ n, complete P (dir_of n) n = false ∧
        out' = out ++ [missing_report P (dir_of n) n]).
Proof.
  induction paths as [|p paths IH]; [done|]. cbn [inventory_loop].
  destruct (decoded P p) as [n|] eqn:Hd.
  - erewrite py_bind_Ret; [|by rewrite name_from_path_decoded, Hd].
    destruct (complete P (dir_of n) n) eqn:Hc.
    + erewrite py_bind_Ret; [|by rewrite check_dataset_run, Hc].
      destruct (inventory_loop P dir_of paths out) as [[ns|e1] out1] eqn:Hrun.
      * erewrite py_bind_Ret; [|done]. done.
      * erewrite py_bind_Raise; [|done]. intros [= <- <-]. by apply IH.
    + erewrite py_bind_Raise; [|by rewrite check_dataset_run, Hc].
      intros [= <- <-]. right. split; [done|]. by exists n.
  - erewrite py_bind_Raise; [|by rewrite name_from_path_decoded, Hd].
    intros [= <- <-]. by left.
Qed.

Lemma inventory_data_raise_loop (input_dir : string) (out : stdout) :
  scan_ok P input_dir = false →
  ∃ e out',
    inventory_loop P (scanned_dir P input_dir) (scanned_paths P input_dir) out
    = (Raise e, out') ∧
    inventory_data P input_dir out = (Raise e, out').
Proof.
  unfold scan_ok, scanned_paths, scanned_dir, inventory_data,
    inventory_data_dir, inventory_data_nodir, nested_paths, flat_paths.
  destruct (glob P (input_dir +:+ "/*/*_train.data")) as [|p ps] eqn:Hn.
  - intros Hbad. erewrite py_bind_Ret; [|done]. simpl length. simpl Nat.eqb.
    destruct (inventory_loop_fail P _ _ out Hbad) as (e & out' & Hrun & _).
    exists e, out'. split; [done|]. by erewrite py_bind_Raise.
  - intros Hbad.
    destruct (inventory_loop_fail P _ _ out Hbad) as (e & out' & Hrun & _).
    exists e, out'. split; [done|]. by erewrite py_bind_Raise.
Qed.

Lemma scanned_paths_nil (input_dir : string) :
  scanned_paths P input_dir = [] ↔
  nested_paths P input_dir = [] ∧ flat_paths P input_dir = [].
Proof.
  unfold scanned_paths. destruct (nested_paths P input_dir) as [|p ps].
  - split; [done | by intros [_ ?]].
  - split; [done | by intros [? _]].
Qed.

End MoreScanFacts.

(** X4. Every name [inventory_data] returns was validated: its
    [_valid.data], [_test.data] and [_train.solution] files exist in the
    directory that was checked, [input_dir/<name>] when the nested pattern
    matched something and [input_dir] otherwise. *)
Theorem inventory_data_names_complete (P : Platform) (input_dir : string)
    (out : stdout) (l : list string) (n : string) :
  value (inventory_data P input_dir out) = Ret l →
  n ∈ l →
  let dirname := if nested_paths P input_dir is [] then input_dir
                 else path_join P input_dir n in
  isfile P (path_join P dirname (n +:+ "_valid.data")) = true ∧
  isfile P (path_join P dirname (n +:+ "_test.data")) = true ∧
  isfile P (path_join P dirname (n +:+ "_train.solution")) = true.
Proof.
  intros [Hok ->]%inventory_data_Ret Hn.
  rewrite merge_sort_Permutation in Hn.
  apply list_elem_of_fmap in Hn as (p & -> & Hp).
  unfold scan_ok in Hok. rewrite forallb_forall in Hok.
  specialize (Hok p (proj1 (list_elem_of_In _ _) Hp)).
  unfold path_ok, name_of in *. destruct (decoded P p) as [n|]; [|done].
  cbn [from_option id]. unfold complete, valid_file, test_file, training_solution in Hok.
  apply andb_true_iff in Hok as [[H1 H2]%andb_true_iff H3].
  unfold scanned_dir in *. by destruct (nested_paths P input_dir).
Qed.

Lemma inventory_data_names_complete_witness :
  isfile (Posix.platform Trees.nested) "d/abc/abc_valid.data" = true ∧
  isfile (Posix.platform Trees.nested) "d/abc/abc_test.data" = true ∧
  isfile (Posix.platform Trees.nested) "d/abc/abc_train.solution" = true.
Proof.
  apply (inventory_data_names_complete (Posix.platform Trees.nested) "d" []
           ["abc"; "zed"] "abc").
  - vm_compute. reflexivity.
  - left.
Defined.

(** X5. When [inventory_data] returns, the list is empty exactly when neither
    pattern matched anything; the warning is printed in that case and nothing
    is printed otherwise. *)
Theorem inventory_data_empty_warning (P : Platform) (input_dir : string)
    (out out' : stdout) (l : list string) :
  inventory_data P input_dir out = (Ret l, out') →
  (l = [] ↔ glob P (input_dir +:+ "/*/*_train.data") = [] ∧
            glob P (path_join P input_dir "*_train.data") = [])
  ∧ out' = out ++ (if l is []
                   then ["WARNING: Inventory data - No data file found"] else []).
Proof.
  intros Hrun.
  assert (scan_ok P input_dir = true) as Hok.
  { apply (inventory_data_Ret P input_dir out l). by rewrite Hrun. }
  rewrite inventory_data_ok in Hrun by done. injection Hrun as <- <-.
  assert (merge_sort String.le (name_of P <$> scanned_paths P input_dir) = []
          ↔ scanned_paths P input_dir = []) as Hnil.
  { split.
    - intros Hl. apply (f_equal length) in Hl.
      rewrite (Permutation_length (merge_sort_Permutation _ _)) in Hl.
      rewrite length_fmap in Hl. by destruct (scanned_paths P input_dir).
    - by intros ->. }
  split.
  - rewrite Hnil. apply scanned_paths_nil.
  - unfold empty_warning.
    destruct (decide (scanned_paths P input_dir = [])) as [Hs|Hs].
    + by rewrite (proj2 Hnil Hs), Hs.
    + destruct (merge_sort _ _) eqn:Hl; [exfalso; apply Hs; by apply Hnil|].
      by destruct (scanned_paths P input_dir).
Qed.

Lemma inventory_data_empty_warning_witness :
  (@nil string = [] ↔ glob (Posix.platform []) ("d" +:+ "/*/*_train.data") = [] ∧
             glob (Posix.platform []) (Posix.join "d" "*_train.data") = [])
  ∧ ["WARNING: Inventory data - No data file found"]
    = [] ++ ["WARNING: Inventory data - No data file found"].
Proof.
  apply (inventory_data_empty_warning (Posix.platform []) "d" []
           ["WARNING: Inventory data - No data file found"] []).
  reflexivity.
Defined.

(** X6. When [inventory_data] fails, it is either with [ValueError] and
    nothing printed, or with [SystemExit 1] after exactly one line, the
    report of the first missing file of an incomplete dataset; the
    empty-inventory warning is never printed on a failing run. *)
Theorem inventory_data_failure_output (P : Platform) (input_dir : string)
    (out out' : stdout) (e : exn) :
  inventory_data P input_dir out = (Raise e, out') →
  (e = ValueError ∧ out' = out) ∨
  (e = SystemExit 1 ∧
   ∃ n, complete P (scanned_dir P input_dir n) n = false ∧
        out' = out ++ [missing_report P (scanned_dir P input_dir n) n]).
Proof.
  intros Hrun. destruct (scan_ok P input_dir) eqn:Hok.
  - by rewrite inventory_data_ok in Hrun.
  - destruct (inventory_data_raise_loop P input_dir out Hok)
      as (e1 & out1 & Hloop & Hdata).
    rewrite Hdata in Hrun. injection Hrun as <- <-.
    by eapply inventory_loop_raise.
Qed.

Lemma inventory_data_failure_output_witness :
  (SystemExit 1 = ValueError ∧ ["No validation file for a"] = []) ∨
  (SystemExit 1 = SystemExit 1 ∧
   ∃ n, complete (Posix.platform Trees.no_valid)
          (scanned_dir (Posix.platform Trees.no_valid) "d" n) n = false ∧
        ["No validation file for a"]
        = [] ++ [missing_report (Posix.platform Trees.no_valid)
                   (scanned_dir (Posix.platform Trees.no_valid) "d" n) n]).
Proof.
  apply (inventory_data_failure_output (Posix.platform Trees.no_valid) "d" []).
  reflexivity.
Defined.

(** X7. The two layouts are never merged: as soon as the nested pattern
    matches something, what the flat pattern (or any other pattern) would
    match makes no difference to the result or to the output. *)
Theorem inventory_data_nested_first (P : Platform) (glob' : string → list string)
    (input_dir : string) (out : stdout) :
  glob P (input_dir +:+ "/*/*_train.data") ≠ [] →
  glob' (input_dir +:+ "/*/*_train.data") = glob P (input_dir +:+ "/*/*_train.data") →
  inventory_data (with_glob P glob') input_dir out = inventory_data P input_dir out.
Proof.
  intros Hnested Hsame.
  unfold inventory_data, inventory_data_dir, inventory_data_nodir.
  cbn [glob with_glob path_join]. rewrite Hsame.
  change (inventory_loop (with_glob P glob')) with (inventory_loop P).
  destruct (glob P (input_dir +:+ "/*/*_train.data")) as [|p ps] eqn:Hn; [done|].
  destruct (forallb (path_ok P (λ n, path_join P input_dir n)) (p :: ps)) eqn:Hok.
  - pose proof (inventory_loop_ok P _ _ out Hok) as Hrun.
    unfold py_bind. by rewrite Hrun.
  - destruct (inventory_loop_fail P _ _ out Hok) as (e & out1 & Hrun & _).
    unfold py_bind. by rewrite Hrun.
Qed.

Lemma inventory_data_nested_first_witness :
  inventory_data
    (with_glob (Posix.platform Trees.nested)
       (Posix.glob (Trees.nested ++ [("d/loose_train.data", "")]))) "d" []
  = inventory_data (Posix.platform Trees.nested) "d" [].
Proof.
  apply (inventory_data_nested_first (Posix.platform Trees.nested)); by vm_compute.
Defined.

(** ** More about the result copier *)

Section MoreCopyFacts.
Variable FS : Type.
Variable glob_in : FS → string → list string.
Variable copy2 : string → string → FS → option FS.
Variables result_dir output_dir : string.

Local Abbreviation body := (λ verbose basename,
  copy_basename FS glob_in copy2 basename result_dir output_dir verbose).
Local Abbreviation run := (λ verbose datanames,
  copy_results FS glob_in copy2 datanames result_dir output_dir verbose).
Local Abbreviation copy := (λ fs, copy_files FS copy2 fs output_dir).

(** What [copy_files] adds to the log: the files up to the first failure. *)
Lemma copy_files_log (fs : list string) (w w' : world FS) (ok : bool) :
  copy fs w = (w', ok) →
  ∃ copied_fs, copied w' = copied w ++ ((λ f, (f, output_dir)) <$> copied_fs) ∧
               (ok = true → copied_fs = fs).
Proof.
  revert w. induction fs as [|f fs IH]; intros w; cbn [copy_files].
  - intros [= <- <-]. exists []. by rewrite app_nil_r.
  - destruct (copy2 f output_dir (files w)) as [files'|].
    + intros (done_fs & Hlog & Hall)%IH. exists (f :: done_fs).
      cbn [copied] in Hlog. rewrite Hlog, <- app_assoc. split; [done|].
      intros Hok. by rewrite (Hall Hok).
    + intros [= <- <-]. exists []. by rewrite app_nil_r.
Qed.

(** The three ways the body of the loop ends. *)
Lemma copy_basename_cases (verbose : bool) (basename : string) (w : world FS)
    (out : stdout) :
  ∃ go_on w1 w2 ok1 ok2 msg,
    body verbose basename w out
    = (Ret (go_on, w2), out ++ if verbose then [msg] else []) ∧
    (copy (glob_in (files w) (test_pattern result_dir basename)) w = (w1, ok1)) ∧
    ((w2 = w ∧ go_on = false ∧
      glob_in (files w) (test_pattern result_dir basename) = [])
     ∨ (w2 = w1 ∧ go_on = false ∧
        (ok1 = false ∨ glob_in (files w1) (valid_pattern result_dir basename) = []))
     ∨ (copy (glob_in (files w1) (valid_pattern result_dir basename)) w1 = (w2, ok2)
        ∧ go_on = ok2 ∧ ok1 = true ∧
        glob_in (files w) (test_pattern result_dir basename) ≠ [] ∧
        glob_in (files w1) (valid_pattern result_dir basename) ≠ [])).
Proof.
  unfold copy_basename, test_pattern, valid_pattern.
  set (tp := result_dir +:+ "/" +:+ basename +:+ "*_test*.predict").
  set (vp := result_dir +:+ "/" +:+ basename +:+ "*_valid*.predict").
  destruct (copy (glob_in (files w) tp) w) as [w1 ok1] eqn:Hcopy1.
  destruct (length (glob_in (files w) tp) =? 0)%nat eqn:Htest.
  { apply length_zero_iff in Htest.
    erewrite py_bind_Ret; [|apply vprint_run].
    eexists false, w1, w, ok1, true, _. split; [done|]. split; [done|]. by left. }
  assert (glob_in (files w) tp ≠ []) as Htest'.
  { intros H. by rewrite H in Htest. }
  destruct ok1.
  2:{ erewrite py_bind_Ret; [|apply vprint_run].
      eexists false, w1, w1, false, true, _. split; [done|]. split; [done|].
      right. left. auto. }
  destruct (length (glob_in (files w1) vp) =? 0)%nat eqn:Hvalid.
  { apply length_zero_iff in Hvalid.
    erewrite py_bind_Ret; [|apply vprint_run].
    eexists false, w1, w1, true, true, _. split; [done|]. split; [done|].
    right. left. auto. }
  assert (glob_in (files w1) vp ≠ []) as Hvalid'.
  { intros H. by rewrite H in Hvalid. }
  destruct (copy (glob_in (files w1) vp) w1) as [w2 ok2] eqn:Hcopy2.
  destruct ok2; (erewrite py_bind_Ret; [|apply vprint_run]).
  - eexists true, w1, w2, true, true, _. split; [done|]. split; [done|].
    right. right. auto.
  - eexists false, w1, w2, true, false, _. split; [done|]. split; [done|].
    right. right. auto.
Qed.

End MoreCopyFacts.

Section CopyLog.
Variable FS : Type.
Variable glob_in : FS → string → list string.
Variable copy2 : string → string → FS → option FS.
Variables result_dir output_dir : string.

Local Abbreviation body := (λ verbose basename,
  copy_basename FS glob_in copy2 basename result_dir output_dir verbose).
Local Abbreviation run := (λ verbose datanames,
  copy_results FS glob_in copy2 datanames result_dir output_dir verbose).
Local Abbreviation copy := (λ fs, copy_files FS copy2 fs output_dir).

Lemma copy_files_extends (fs : list string) (w w' : world FS) (ok : bool) :
  copy fs w = (w', ok) →
  ∃ new, copied w' = copied w ++ new ∧ Forall (λ p, p.2 = output_dir) new.
Proof.
  intros (copied_fs & -> & _)%copy_files_log. eexists. split; [done|].
  apply Forall_fmap, Forall_forall. by intros f _.
Qed.

Lemma copy_basename_extends (verbose : bool) (basename : string) (w w' : world FS)
    (out out' : stdout) (go_on : bool) :
  body verbose basename w out = (Ret (go_on, w'), out') →
  ∃ new, copied w' = copied w ++ new ∧ Forall (λ p, p.2 = output_dir) new.
Proof.
  destruct (copy_basename_cases FS glob_in copy2 result_dir output_dir verbose
              basename w out)
    as (g & w1 & w2 & ok1 & ok2 & msg & -> & Hcopy1 & Hcases).
  intros [= -> -> _].
  destruct (copy_files_extends _ _ _ _ Hcopy1) as (new1 & Hlog1 & Hdst1).
  destruct Hcases as [(-> & _) | [(-> & _) | (Hcopy2 & _)]].
  - exists []. by rewrite app_nil_r.
  - by exists new1.
  - destruct (copy_files_extends _ _ _ _ Hcopy2) as (new2 & Hlog2 & Hdst2).
    exists (new1 ++ new2). rewrite Hlog2, Hlog1, <- app_assoc. split; [done|].
    by apply Forall_app.
Qed.

Lemma copy_basename_verbose (basename : string) (w : world FS) (out1 out2 : stdout) :
  value (body true basename w out1) = value (body false basename w out2) ∧
  printed (body false basename w out2) = out2.
Proof.
  unfold copy_basename, vprint, when, print, py_bind, py_ret, value, printed.
  repeat case_match; simplify_eq/=; done.
Qed.

End CopyLog.

(** The log of copies after a call extends the log before it, by copies
    into [output_dir]. *)
Lemma copy_results_log_extends (FS : Type)
    (glob_in : FS → string → list string) (copy2 : string → string → FS → option FS)
    (datanames : list string) (result_dir output_dir : string) (verbose : bool)
    (w w' : world FS) (out out' : stdout) (r : Z) :
  copy_results FS glob_in copy2 datanames result_dir output_dir verbose w out
  = (Ret (r, w'), out') →
  ∃ new, copied w' = copied w ++ new ∧ Forall (λ p, p.2 = output_dir) new.
Proof.
  revert w out. induction datanames as [|basename rest IH]; intros w out.
  - intros [= _ <- _]. exists []. by rewrite app_nil_r.
  - cbn [copy_results].
    destruct (copy_basename_returns FS glob_in copy2 result_dir output_dir verbose
                basename w out) as (go_on & w1 & out1 & Hbody).
    erewrite py_bind_Ret; [|exact Hbody]. cbn [fst snd].
    destruct (copy_basename_extends _ _ _ _ _ _ _ _ _ _ _ _ Hbody)
      as (new1 & Hlog1 & Hdst1).
    destruct go_on.
    + intros (new2 & Hlog2 & Hdst2)%IH. exists (new1 ++ new2).
      rewrite Hlog2, Hlog1, <- app_assoc. split; [done|]. by apply Forall_app.
    + intros [= _ <- _]. by exists new1.
Qed.

(** X9. The verbosity flag only affects what is printed: the returned flag
    and the files copied are the same with and without it, and a call that is
    not verbose prints nothing. *)
Theorem copy_results_verbose_only_prints (FS : Type)
    (glob_in : FS → string → list string) (copy2 : string → string → FS → option FS)
    (datanames : list string) (result_dir output_dir : string)
    (w : world FS) (out1 out2 : stdout) :
  value (copy_results FS glob_in copy2 datanames result_dir output_dir true w out1)
  = value (copy_results FS glob_in copy2 datanames result_dir output_dir false w out2)
  ∧ printed (copy_results FS glob_in copy2 datanames result_dir output_dir false w out2)
    = out2.
Proof.
  revert w out1 out2. induction datanames as [|basename rest IH]; intros w out1 out2;
    [done|].
  cbn [copy_results].
  destruct (copy_basename_verbose FS glob_in copy2 result_dir output_dir
              basename w out1 out2) as [Hvalue Hprinted].
  destruct (copy_basename_returns FS glob_in copy2 result_dir output_dir true
              basename w out1) as (g1 & w1 & o1 & Hbody1).
  destruct (copy_basename_returns FS glob_in copy2 result_dir output_dir false
              basename w out2) as (g2 & w2 & o2 & Hbody2).
  rewrite Hbody1, Hbody2 in Hvalue. rewrite Hbody2 in Hprinted.
  unfold value, printed in Hvalue, Hprinted. simpl in Hvalue, Hprinted.
  injection Hvalue as -> ->. subst o2.
  erewrite !py_bind_Ret; [|exact Hbody2|exact Hbody1]. cbn [fst snd].
  destruct g2; [apply IH | done].
Qed.

(** X10. An exception raised by a copy is swallowed: the call returns 0 at
    once, keeps the copies made before the failure, leaves the remaining
    datasets alone and, when verbose, prints "[-] Missing result files". *)
Theorem copy_results_swallows_copy_error (FS : Type)
    (glob_in : FS → string → list string) (copy2 : string → string → FS → option FS)
    (basename : string) (rest : list string) (result_dir output_dir : string)
    (verbose : bool) (w w1 : world FS) (out : stdout) :
  let run := copy_results FS glob_in copy2 (basename :: rest) result_dir output_dir
               verbose in
  let copy := λ pattern w,
    copy_files FS copy2 (glob_in (files w) pattern) output_dir w in
  let report := out ++ if verbose then ["[-] Missing result files"] else [] in
  (copy (test_pattern result_dir basename) w = (w1, false) →
   run w out = (Ret (0, w1), report))
  ∧ (∀ w2,
       glob_in (files w) (test_pattern result_dir basename) ≠ [] →
       copy (test_pattern result_dir basename) w = (w1, true) →
       copy (valid_pattern result_dir basename) w1 = (w2, false) →
       run w out = (Ret (0, w2), report)).
Proof.
  intros run copy report. unfold run, copy, report, test_pattern, valid_pattern.
  set (tp := result_dir +:+ "/" +:+ basename +:+ "*_test*.predict").
  set (vp := result_dir +:+ "/" +:+ basename +:+ "*_valid*.predict").
  split.
  - intros Hcopy. cbn [copy_results]. unfold copy_basename. fold tp vp.
    destruct (glob_in (files w) tp) as [|f fs] eqn:Htest; [done|].
    cbn [length Nat.eqb]. rewrite Hcopy.
    erewrite py_bind_Ret;
      [|erewrite py_bind_Ret; [reflexivity | apply vprint_run]].
    done.
  - intros w2 Htest Hcopy1 Hcopy2. cbn [copy_results]. unfold copy_basename.
    fold tp vp.
    destruct (length (glob_in (files w) tp) =? 0)%nat eqn:Hlen;
      [by apply length_zero_iff in Hlen|].
    rewrite Hcopy1.
    destruct (glob_in (files w1) vp) as [|f fs] eqn:Hvalid; [done|].
    cbn [length Nat.eqb]. rewrite Hcopy2.
    erewrite py_bind_Ret;
      [|erewrite py_bind_Ret; [reflexivity | apply vprint_run]].
    done.
Qed.

Lemma copy_results_swallows_copy_error_witness :
  copy_results (list string) (λ _ _, ["res/gone_test.predict"]) Results.copy2
    ["gone"; "a"] "res" "out" true (Results.start Results.only_a) []
  = (Ret (0, Results.start Results.only_a), ["[-] Missing result files"]).
Proof.
  apply (proj1 (copy_results_swallows_copy_error (list string)
                  (λ _ _, ["res/gone_test.predict"]) Results.copy2
                  "gone" ["a"] "res" "out" true (Results.start Results.only_a)
                  (Results.start Results.only_a) [])).
  reflexivity.
Defined.

Section CopySuccess.
Variable FS : Type.
Variable glob_in : FS → string → list string.
Variable copy2 : string → string → FS → option FS.
Variables result_dir output_dir : string.
Variable names : list string.

(** Copying into [output_dir] does not change what the patterns of the
    datasets [names] match. *)
Hypothesis Hstable : ∀ b f fs fs',
  b ∈ names → copy2 f output_dir fs = Some fs' →
  glob_in fs' (test_pattern result_dir b) = glob_in fs (test_pattern result_dir b) ∧
  glob_in fs' (valid_pattern result_dir b) = glob_in fs (valid_pattern result_dir b).

Local Abbreviation copy := (λ fs, copy_files FS copy2 fs output_dir).

Lemma copy_files_stable (fs : list string) (w w' : world FS) (ok : bool) (b : string) :
  b ∈ names → copy fs w = (w', ok) →
  glob_in (files w') (test_pattern result_dir b)
  = glob_in (files w) (test_pattern result_dir b) ∧
  glob_in (files w') (valid_pattern result_dir b)
  = glob_in (files w) (valid_pattern result_dir b).
Proof.
  intros Hb. revert w. induction fs as [|f fs IH]; intros w; cbn [copy_files].
  - by intros [= <- <-].
  - destruct (copy2 f output_dir (files w)) as [files'|] eqn:Hcopy.
    + intros [Ht Hv]%IH. cbn [files] in Ht, Hv.
      destruct (Hstable b f (files w) files' Hb Hcopy) as [Ht' Hv'].
      split; congruence.
    + by intros [= <- <-].
Qed.

Lemma copy_basename_stable (verbose : bool) (basename b : string) (w w' : world FS)
    (out out' : stdout) (go_on : bool) :
  b ∈ names →
  copy_basename FS glob_in copy2 basename result_dir output_dir verbose w out
  = (Ret (go_on, w'), out') →
  glob_in (files w') (test_pattern result_dir b)
  = glob_in (files w) (test_pattern result_dir b) ∧
  glob_in (files w') (valid_pattern result_dir b)
  = glob_in (files w) (valid_pattern result_dir b).
Proof.
  intros Hb.
  destruct (copy_basename_cases FS glob_in copy2 result_dir output_dir verbose
              basename w out)
    as (g & w1 & w2 & ok1 & ok2 & msg & -> & Hcopy1 & Hcases).
  intros [= -> -> _].
  destruct (copy_files_stable _ _ _ _ b Hb Hcopy1) as [Ht1 Hv1].
  destruct Hcases as [(-> & _) | [(-> & _) | (Hcopy2 & _)]]; [done..|].
  destruct (copy_files_stable _ _ _ _ b Hb Hcopy2) as [Ht2 Hv2].
  split; congruence.
Qed.

End CopySuccess.

Section CopySuccessAll.
Variable FS : Type.
Variable glob_in : FS → string → list string.
Variable copy2 : string → string → FS → option FS.
Variables result_dir output_dir : string.
Variable verbose : bool.
Variable names : list string.
Hypothesis Hstable : ∀ b f fs fs',
  b ∈ names → copy2 f output_dir fs = Some fs' →
  glob_in fs' (test_pattern result_dir b) = glob_in fs (test_pattern result_dir b) ∧
  glob_in fs' (valid_pattern result_dir b) = glob_in fs (valid_pattern result_dir b).

Lemma copy_results_success_sublist (l : list string) (w w' : world FS)
    (out out' : stdout) :
  l ⊆ names →
  copy_results FS glob_in copy2 l result_dir output_dir verbose w out
  = (Ret (1, w'), out') →
  ∀ b, b ∈ l →
    glob_in (files w) (test_pattern result_dir b) ≠ [] ∧
    glob_in (files w) (valid_pattern result_dir b) ≠ [] ∧
    ∀ f, f ∈ glob_in (files w) (test_pattern result_dir b)
         ∨ f ∈ glob_in (files w) (valid_pattern result_dir b) →
         (f, output_dir) ∈ copied w'.
Proof.
  revert w out. induction l as [|b0 rest IH]; intros w out Hsub Hrun b Hb;
    [by apply elem_of_nil in Hb|].
  cbn [copy_results] in Hrun.
  destruct (copy_basename_cases FS glob_in copy2 result_dir output_dir verbose
              b0 w out)
    as (g & wa & w1 & ok1 & ok2 & msg & Hbody & Hcopy1 & Hcases).
  erewrite py_bind_Ret in Hrun; [|exact Hbody]. cbn [fst snd] in Hrun.
  destruct g; [|done].
  destruct Hcases as [(_ & [=] & _) | [(_ & [=] & _) | (Hcopy2 & <- & -> & Ht & Hv)]].
  assert (b0 ∈ names) as Hb0 by (apply Hsub; left).
  destruct (copy_files_stable FS glob_in copy2 result_dir output_dir names Hstable
              _ _ _ _ b0 Hb0 Hcopy1) as [_ Hv0].
  destruct (copy_files_log _ _ _ _ _ _ _ Hcopy1) as (fs1 & Hlog1 & Hall1).
  destruct (copy_files_log _ _ _ _ _ _ _ Hcopy2) as (fs2 & Hlog2 & Hall2).
  rewrite (Hall1 eq_refl) in Hlog1. rewrite (Hall2 eq_refl), Hv0 in Hlog2.
  destruct (copy_results_log_extends _ _ _ _ _ _ _ _ _ _ _ _ Hrun)
    as (new & Hlog & _).
  apply elem_of_cons in Hb as [-> | Hb].
  - split; [done|]. split; [by rewrite <- Hv0|].
    intros f Hf. rewrite Hlog, Hlog2, Hlog1.
    destruct Hf as [Hf | Hf].
    + apply elem_of_app. left. apply elem_of_app. left. apply elem_of_app. right.
      apply list_elem_of_fmap. by exists f.
    + apply elem_of_app. left. apply elem_of_app. right.
      apply list_elem_of_fmap. by exists f.
  - assert (b ∈ names) as Hbn by (apply Hsub; by right).
    destruct (copy_basename_stable FS glob_in copy2 result_dir output_dir names
                Hstable verbose b0 b w w1 out _ true Hbn Hbody) as [Ht1 Hv1].
    rewrite <- Ht1, <- Hv1. eapply IH; [|exact Hrun|done].
    intros x Hx. apply Hsub. by right.
Qed.

End CopySuccessAll.

(** X11. Provided that copying into [output_dir] does not change what the
    datasets' patterns match, a call that returns 1 has found test and valid
    predictions for every dataset of the list and has copied every one of the
    matched files. *)
Theorem copy_results_success_copies_all (FS : Type)
    (glob_in : FS → string → list string) (copy2 : string → string → FS → option FS)
    (datanames : list string) (result_dir output_dir : string) (verbose : bool)
    (w w' : world FS) (out out' : stdout) :
  (∀ b f fs fs',
     b ∈ datanames → copy2 f output_dir fs = Some fs' →
     glob_in fs' (test_pattern result_dir b) = glob_in fs (test_pattern result_dir b) ∧
     glob_in fs' (valid_pattern result_dir b)
     = glob_in fs (valid_pattern result_dir b)) →
  copy_results FS glob_in copy2 datanames result_dir output_dir verbose w out
  = (Ret (1, w'), out') →
  ∀ b, b ∈ datanames →
    glob_in (files w) (test_pattern result_dir b) ≠ [] ∧
    glob_in (files w) (valid_pattern result_dir b) ≠ [] ∧
    ∀ f, f ∈ glob_in (files w) (test_pattern result_dir b)
         ∨ f ∈ glob_in (files w) (valid_pattern result_dir b) →
         (f, output_dir) ∈ copied w'.
Proof.
  intros Hstable Hrun.
  by apply (copy_results_success_sublist FS glob_in copy2 result_dir output_dir
              verbose datanames Hstable datanames w w' out out').
Qed.

Section ResultsModelFacts.

Lemma basename_head (p : string) :
  Results.basename p = EmptyString ∨
  ∃ c s, Results.basename p = String c s ∧ c ≠ "/"%char.
Proof.
  induction p as [|c p IH]; [by left|]. simpl.
  case_decide as Hc; [exact IH|].
  destruct (PyStr.index "/"%char p); [exact IH|]. right. by exists c, p.
Qed.

Lemma join_out_head (f : string) :
  ∃ s, Posix.join "out" (Results.basename f) = String "o" s.
Proof.
  destruct (basename_head f) as [-> | (c & s & -> & Hc)]; [by exists "ut/"|].
  exists ("ut/" +:+ String c s).
  destruct c as [[] [] [] [] [] [] [] []]; first [reflexivity | by destruct Hc].
Qed.

(** In the example model, copying into [out] adds nothing that a pattern
    under [res] matches. *)
Lemma results_copy_stable (pat f : string) (fs fs' : list string) :
  Results.copy2 f "out" fs = Some fs' →
  Results.glob_in fs' (String "r" pat) = Results.glob_in fs (String "r" pat).
Proof.
  unfold Results.copy2. case_bool_decide; [|done]. intros [= <-].
  unfold Results.glob_in. rewrite filter_app.
  destruct (join_out_head f) as [s ->].
  rewrite (filter_cons_False _ (String "o" s)), filter_nil, app_nil_r; [done|].
  by vm_compute.
Qed.

End ResultsModelFacts.

Lemma copy_results_success_copies_all_witness :
  (Results.glob_in Results.only_a (test_pattern "res" "a") ≠ [] ∧
   Results.glob_in Results.only_a (valid_pattern "res" "a") ≠ [])
  ∧ ("res/a_valid.predict", "out")
    ∈ [("res/a_test.predict", "out"); ("res/a_valid.predict", "out")].
Proof.
  destruct (copy_results_success_copies_all (list string) Results.glob_in
              Results.copy2 ["a"] "res" "out" false
              (Results.start Results.only_a)
              {| files := ["res/a_test.predict"; "res/a_valid.predict";
                           "out/a_test.predict"; "out/a_valid.predict"];
                 copied := [("res/a_test.predict", "out");
                            ("res/a_valid.predict", "out")] |}
              [] []) with (b := "a") as (Htest & Hvalid & Hcopied).
  - intros b f fs fs' _ Hcopy. split; by apply (results_copy_stable _ f).
  - vm_compute. reflexivity.
  - left.
  - split; [done|]. apply Hcopied. right. vm_compute. left.
Defined.

(** ** More about the binary-indicator loader *)

Section BinaryWrap.
Variable float : Type.
Variable float_of_int : Z → float.
Variable py_int : string → option Z.

Local Abbreviation sparse := (sparse float).
Local Abbreviation one := (float_of_int 1).
Local Abbreviation fill_row := (set_features float float_of_int py_int).
Local Abbreviation fill_rows := (set_rows float float_of_int py_int).

Lemma column_of_is_Some (ncols : nat) (tok : string) :
  is_Some (column_of py_int ncols tok) ↔
  ∃ k, py_int tok = Some k ∧ 1 - Z.of_nat ncols ≤ k ≤ Z.of_nat ncols.
Proof.
  unfold column_of. destruct (py_int tok) as [k|]; simpl.
  - split.
    + intros [c Hc]. exists k. split; [done|].
      destruct (decide (1 - Z.of_nat ncols ≤ k ≤ Z.of_nat ncols)); [done|].
      rewrite axis_index_outside in Hc by lia. done.
    + intros (k' & [= <-] & Hk).
      destruct (decide (k - 1 < 0)).
      * rewrite axis_index_wraps by lia. by eexists.
      * rewrite axis_index_inside by lia. by eexists.
  - split; [by intros [? ?] | by intros (? & ? & _)].
Qed.

Lemma set_features_reaches (m : sparse) (row : nat) (features : list string)
    (out : stdout) :
  (row < (shape m).1)%nat →
  Forall (λ tok, is_Some (column_of py_int (shape m).2 tok)) features →
  ∃ m', fill_row m row features out = (Ret m', out) ∧
        shape m' = shape m ∧
        ∀ i j, entries m' !! (i, j) =
               if bool_decide (i = row) && reaches py_int (shape m).2 features j
               then Some one
               else entries m !! (i, j).
Proof.
  intros Hrow. revert m Hrow.
  induction features as [|tok rest IH]; intros m Hrow Hall.
  - exists m. split; [done|]. split; [done|]. intros i j.
    by rewrite andb_false_r.
  - apply Forall_cons in Hall as [[c Hc] Hrest].
    change (reaches py_int (shape m).2 (tok :: rest))
      with (λ j, bool_decide (column_of py_int (shape m).2 tok = Some j)
                 || reaches py_int (shape m).2 rest j).
    rewrite Hc. unfold column_of in Hc.
    cbn [set_features]. destruct (py_int tok) as [k|]; [|done].
    simpl in Hc. unfold dok_setitem.
    rewrite axis_index_inside by lia. rewrite Hc, Nat2Z.id.
    erewrite py_bind_Ret; [|reflexivity].
    edestruct (IH {| shape := shape m;
                     entries := <[(row, c) := one]> (entries m) |})
      as (m' & Hrun & Hshape & Hent); [done | done |].
    exists m'. split; [exact Hrun|]. split; [done|].
    intros i j. rewrite Hent. cbn [entries shape].
    destruct (bool_decide (i = row)) eqn:Hi; cbn [andb].
    + apply bool_decide_eq_true in Hi as ->.
      destruct (reaches py_int _ rest j); [by rewrite orb_true_r|].
      rewrite orb_false_r. case_bool_decide as Hj.
      * injection Hj as ->. by rewrite lookup_insert_eq.
      * rewrite lookup_insert_ne; [done|]. intros [= Heq]. apply Hj. by f_equal.
    + apply bool_decide_eq_false in Hi.
      rewrite lookup_insert_ne; [done|]. intros [= Heq _]. by apply Hi.
Qed.

Lemma set_rows_reaches (m : sparse) (row : nat) (data : list (list string))
    (out : stdout) :
  (row + length data ≤ (shape m).1)%nat →
  Forall (Forall (λ tok, is_Some (column_of py_int (shape m).2 tok))) data →
  ∃ m', fill_rows m row data out = (Ret m', out) ∧
        shape m' = shape m ∧
        ∀ i j, entries m' !! (i, j) =
               if bool_decide (row ≤ i)%nat
                  && reaches py_int (shape m).2 (default [] (data !! (i - row)%nat)) j
               then Some one
               else entries m !! (i, j).
Proof.
  revert m row. induction data as [|features rest IH]; intros m row Hrows Hall.
  - exists m. split; [done|]. split; [done|]. intros i j.
    by rewrite andb_false_r.
  - apply Forall_cons in Hall as [Hfeatures Hrest]. simpl in Hrows.
    cbn [set_rows].
    destruct (set_features_reaches m row features out) as (m1 & Hrun1 & Hshape1 & Hent1);
      [lia | done |].
    erewrite py_bind_Ret; [|exact Hrun1].
    destruct (IH m1 (S row)) as (m' & Hrun & Hshape & Hent).
    { rewrite Hshape1. lia. }
    { by rewrite Hshape1. }
    exists m'. split; [exact Hrun|]. split; [congruence|].
    intros i j. rewrite Hent, Hent1, Hshape1.
    destruct (decide (i = row)) as [->|Hne].
    + rewrite (bool_decide_eq_false_2 (S row ≤ row)%nat) by lia.
      rewrite !bool_decide_eq_true_2 by (done || lia).
      by rewrite Nat.sub_diag.
    + rewrite (bool_decide_eq_false_2 (i = row)) by done. simpl.
      destruct (decide (row ≤ i)%nat) as [Hle|Hgt].
      * rewrite !bool_decide_eq_true_2 by lia.
        by replace (i - row)%nat with (S (i - S row)) by lia.
      * by rewrite !bool_decide_eq_false_2 by lia.
Qed.

(** How filling one row ends: with a matrix of the same shape, and then every
    token had a column, or with one of two exceptions; nothing is printed. *)
Lemma set_features_ends (m : sparse) (row : nat) (features : list string)
    (out : stdout) :
  (∃ m', fill_row m row features out = (Ret m', out) ∧ shape m' = shape m ∧
         Forall (λ tok, is_Some (column_of py_int (shape m).2 tok)) features)
  ∨ fill_row m row features out = (Raise ValueError, out)
  ∨ fill_row m row features out = (Raise IndexError, out).
Proof.
  revert m. induction features as [|tok rest IH]; intros m.
  { left. by exists m. }
  cbn [set_features].
  destruct (py_int tok) as [k|] eqn:Hk; [|by right; left].
  unfold dok_setitem.
  destruct (axis_index (shape m).1 (Z.of_nat row)) as [i'|]; [|by right; right].
  destruct (axis_index (shape m).2 (k - 1)) as [j'|] eqn:Hj; [|by right; right].
  erewrite py_bind_Ret; [|reflexivity].
  destruct (IH {| shape := shape m; entries := <[(i', j') := one]> (entries m) |})
    as [(m' & Hrun & Hshape & Hall) | [Hraise | Hraise]]; [left|by right; left|by right; right].
  exists m'. split; [done|]. split; [done|]. apply Forall_cons. split; [|done].
  unfold column_of. rewrite Hk. simpl. by rewrite Hj.
Qed.

Lemma set_rows_ends (m : sparse) (row : nat) (data : list (list string))
    (out : stdout) :
  (∃ m', fill_rows m row data out = (Ret m', out) ∧ shape m' = shape m ∧
         Forall (Forall (λ tok, is_Some (column_of py_int (shape m).2 tok))) data)
  ∨ fill_rows m row data out = (Raise ValueError, out)
  ∨ fill_rows m row data out = (Raise IndexError, out).
Proof.
  revert m row. induction data as [|features rest IH]; intros m row.
  { left. by exists m. }
  cbn [set_rows].
  destruct (set_features_ends m row features out)
    as [(m1 & Hrun1 & Hshape1 & Hall1) | [Hraise | Hraise]].
  - erewrite py_bind_Ret; [|exact Hrun1].
    destruct (IH m1 (S row)) as [(m' & Hrun & Hshape & Hall) | [Hraise | Hraise]];
      [left|by right; left|by right; right].
    exists m'. split; [done|]. split; [congruence|].
    apply Forall_cons. split; [done|]. by rewrite <- Hshape1.
  - right. left. by erewrite py_bind_Raise.
  - right. right. by erewrite py_bind_Raise.
Qed.

End BinaryWrap.

Lemma file_to_array_text (P : Platform) (filename : string)
    (data : list (list string)) (out out' : stdout) :
  file_to_array P filename out = (Ret data, out') →
  ∃ text, read P filename = Some text ∧ data = Text.rows text.
Proof.
  unfold file_to_array. destruct (read P filename) as [text|]; [|done].
  intros [= <- _]. by exists text.
Qed.

(** X12. [data_binary_sparse] loads a file exactly when each of its tokens is
    an integer between [1 - F] and [F]. Otherwise it raises [ValueError] (a
    token that is no integer) or [IndexError] (an index out of bounds), having
    printed only its first progress line. *)
Theorem data_binary_sparse_loads_iff (P : Platform) (float : Type)
    (float_of_int : Z → float) (py_int : string → option Z)
    (filename : string) (data : list (list string)) (feat_type : list string)
    (out : stdout) :
  file_to_array P filename out = (Ret data, out) →
  let run := data_binary_sparse P float float_of_int py_int filename feat_type out in
  ((∃ m out', run = (Ret m, out')) ↔
   ∀ row tok, row ∈ data → tok ∈ row →
     ∃ k, py_int tok = Some k ∧
          1 - Z.of_nat (length feat_type) ≤ k ≤ Z.of_nat (length feat_type))
  ∧ (∀ e out', run = (Raise e, out') →
       (e = ValueError ∨ e = IndexError) ∧
       out' = out ++ ["Converting " +:+ filename +:+ " to dok sparse matrix"]).
Proof.
  intros Hfile run. unfold run.
  destruct (file_to_array_text P filename data out out Hfile) as (text & Hread & ->).
  rewrite (data_binary_sparse_run _ _ _ _ _ text) by done.
  set (out1 := out ++ ["Converting " +:+ filename +:+ " to dok sparse matrix"]).
  destruct (set_rows_ends float float_of_int py_int
              (dok_matrix (length (Text.rows text), length feat_type)) 0
              (Text.rows text) out1)
    as [(m & Hrun & _ & Hall) | [Hraise | Hraise]].
  - erewrite py_bind_Ret; [|exact Hrun]. split; [|done].
    split; [|by eexists _, _].
    intros _ row tok Hrow Htok. apply column_of_is_Some.
    rewrite Forall_forall in Hall. specialize (Hall row Hrow).
    rewrite Forall_forall in Hall. by apply Hall.
  - erewrite py_bind_Raise; [|exact Hraise]. split.
    + split; [by intros (? & ? & [=])|]. intros Hwf. exfalso.
      edestruct (set_rows_reaches float float_of_int py_int
                   (dok_matrix (length (Text.rows text), length feat_type)) 0
                   (Text.rows text) out1) as (m & Hrun & _).
      { simpl. lia. }
      { apply Forall_forall. intros row Hrow. apply Forall_forall.
        intros tok Htok. apply column_of_is_Some. by apply (Hwf row). }
      congruence.
    + intros e out' [= <- <-]. auto.
  - erewrite py_bind_Raise; [|exact Hraise]. split.
    + split; [by intros (? & ? & [=])|]. intros Hwf. exfalso.
      edestruct (set_rows_reaches float float_of_int py_int
                   (dok_matrix (length (Text.rows text), length feat_type)) 0
                   (Text.rows text) out1) as (m & Hrun & _).
      { simpl. lia. }
      { apply Forall_forall. intros row Hrow. apply Forall_forall.
        intros tok Htok. apply column_of_is_Some. by apply (Hwf row). }
      congruence.
    + intros e out' [= <- <-]. auto.
Qed.

Lemma data_binary_sparse_loads_iff_witness :
  (∃ m out', SparseExample.load_binary "binary_zero.data" 4 = (Ret m, out'))
  ∧ ∀ e out', SparseExample.load_binary "binary_five.data" 4 = (Raise e, out') →
      (e = ValueError ∨ e = IndexError) ∧
      out' = ["Converting binary_five.data to dok sparse matrix"].
Proof.
  split.
  - apply (proj1 (data_binary_sparse_loads_iff (Posix.platform SparseExample.files)
                    Q inject_Z Decimal.int "binary_zero.data" [["0"]]
                    (replicate 4 "Numerical") [] eq_refl)).
    intros row tok Hrow Htok.
    apply elem_of_cons in Hrow as [-> | Hrow]; [|by apply elem_of_nil in Hrow].
    apply elem_of_cons in Htok as [-> | Htok]; [|by apply elem_of_nil in Htok].
    exists 0. split; [reflexivity|]. simpl. lia.
  - apply (proj2 (data_binary_sparse_loads_iff (Posix.platform SparseExample.files)
                    Q inject_Z Decimal.int "binary_five.data"
                    [["1"; "3"]; ["5"]]
                    (replicate 4 "Numerical") [] eq_refl)).
Defined.

(** X13. On a file it loads, [data_binary_sparse] prints its two progress
    lines and returns a matrix of one row per line and [F] columns in which
    entry [(i, j)] is 1.0 when a token of line [i] lands on column [j] and 0.0
    otherwise, where an index [k ≥ 1] lands on column [k - 1] and an index
    [k ≤ 0] on column [F + k - 1], counted from the end. *)
Theorem data_binary_sparse_wraps (P : Platform) (float : Type)
    (float_of_int : Z → float) (py_int : string → option Z)
    (filename : string) (data : list (list string)) (feat_type : list string)
    (out : stdout) :
  file_to_array P filename out = (Ret data, out) →
  (∀ row tok, row ∈ data → tok ∈ row →
     ∃ k, py_int tok = Some k ∧
          1 - Z.of_nat (length feat_type) ≤ k ≤ Z.of_nat (length feat_type)) →
  ∃ m,
    data_binary_sparse P float float_of_int py_int filename feat_type out
    = (Ret m, out ++ ["Converting " +:+ filename +:+ " to dok sparse matrix";
                      "Converting " +:+ filename +:+ " to csr sparse matrix"]) ∧
    shape m = (length data, length feat_type) ∧
    (∀ i j,
       sparse_get float_of_int m i j =
       if reaches py_int (length feat_type) (default [] (data !! i)) j
       then float_of_int 1 else float_of_int 0) ∧
    (∀ i row tok k,
       data !! i = Some row → tok ∈ row → py_int tok = Some k →
       sparse_get float_of_int m i
         (Z.to_nat (if k <? 1 then Z.of_nat (length feat_type) + k - 1 else k - 1))
       = float_of_int 1).
Proof.
  intros Hfile Hwf.
  destruct (file_to_array_text P filename data out out Hfile) as (text & Hread & ->).
  rewrite (data_binary_sparse_run _ _ _ _ _ text) by done.
  edestruct (set_rows_reaches float float_of_int py_int
               (dok_matrix (length (Text.rows text), length feat_type)) 0
               (Text.rows text)) as (m & Hrun & Hshape & Hent).
  { simpl. lia. }
  { apply Forall_forall. intros row Hrow. apply Forall_forall. intros tok Htok.
    apply column_of_is_Some. by apply (Hwf row). }
  erewrite py_bind_Ret; [|exact Hrun].
  exists m. split.
  { unfold py_bind, print, py_ret, tocsr. by rewrite <- app_assoc. }
  split; [exact Hshape|].
  assert (∀ i j, sparse_get float_of_int m i j =
                 if reaches py_int (length feat_type)
                      (default [] (Text.rows text !! i)) j
                 then float_of_int 1 else float_of_int 0) as Hget.
  { intros i j. unfold sparse_get. rewrite Hent.
    rewrite bool_decide_eq_true_2 by lia. rewrite Nat.sub_0_r. cbn [andb].
    cbn [shape dok_matrix snd]. by destruct (reaches _ _ _ _). }
  split; [exact Hget|].
  intros i row tok k Hi Htok Hk. rewrite Hget, Hi. cbn [from_option id].
  match goal with |- (if ?b then _ else _) = _ => assert (b = true) as ->; [|done] end.
  apply existsb_exists. exists tok. split; [by apply list_elem_of_In|].
  apply bool_decide_eq_true. unfold column_of. rewrite Hk. simpl.
  destruct (Hwf row tok (list_elem_of_lookup_2 _ _ _ Hi) Htok) as (k' & Hk' & Hrange).
  assert (k' = k) as -> by congruence.
  destruct (Z.ltb_spec k 1).
  - rewrite axis_index_wraps by lia. f_equal. lia.
  - by rewrite axis_index_inside by lia.
Qed.

Lemma data_binary_sparse_wraps_witness :
  ∃ m,
    SparseExample.load_binary "binary_zero.data" 4
    = (Ret m, ["Converting binary_zero.data to dok sparse matrix";
               "Converting binary_zero.data to csr sparse matrix"]) ∧
    shape m = (1%nat, 4%nat) ∧ sparse_get inject_Z m 0 3 = 1%Q.
Proof.
  destruct (data_binary_sparse_wraps (Posix.platform SparseExample.files) Q
              inject_Z Decimal.int "binary_zero.data" [["0"]]
              (replicate 4 "Numerical") [] eq_refl)
    as (m & Hrun & Hshape & _ & Hwrap).
  { intros row tok Hrow Htok.
    apply elem_of_cons in Hrow as [-> | Hrow]; [|by apply elem_of_nil in Hrow].
    apply elem_of_cons in Htok as [-> | Htok]; [|by apply elem_of_nil in Htok].
    exists 0. split; [reflexivity|]. simpl. lia. }
  exists m. split; [exact Hrun|]. split; [exact Hshape|].
  apply (Hwrap 0%nat ["0"] "0" 0); [done | left | done].
Defined.

(** ** Packing a directory *)

Section ZipFacts.

Lemma substring_all (s : string) : String.substring 0 (String.length s) s = s.
Proof. induction s as [|c s IH]; simpl; [done | by rewrite IH]. Qed.

Lemma substring_split (s : string) (n : nat) :
  (n ≤ String.length s)%nat →
  String.substring 0 n s +:+ String.substring n (String.length s - n) s = s.
Proof.
  revert n. induction s as [|c s IH]; intros n Hn.
  - simpl in Hn. by replace n with 0%nat by lia.
  - destruct n as [|n].
    + cbn [String.substring]. rewrite app_nil_l_str. simpl.
      by rewrite substring_all.
    + simpl in Hn. cbn [String.substring String.length Nat.sub].
      rewrite app_cons_str, IH; [done | lia].
Qed.

(** [s[n:]] for [0 ≤ n ≤ len(s)] drops the first [n] characters. *)
Lemma slice_from_app (a b : string) :
  slice_from (a +:+ b) (Z.of_nat (String.length a)) = b.
Proof.
  unfold slice_from, PyStr.slice, PyStr.slice_bound.
  rewrite length_app.
  rewrite (proj2 (Z.ltb_ge _ 0)) by lia. rewrite (proj2 (Z.ltb_ge _ 0)) by lia.
  rewrite (Z.min_l (Z.of_nat (String.length a))) by lia. rewrite Z.min_id.
  rewrite Nat2Z.id.
  replace (Z.to_nat _) with (String.length b) by lia.
  rewrite substring_skip. apply substring_all.
Qed.

Lemma slice_from_zip (fn : string) : slice_from fn (-4) = ".zip" ↔ zip_name fn.
Proof.
  unfold slice_from, PyStr.slice, PyStr.slice_bound, zip_name.
  change (-4 <? 0) with true. cbn match.
  rewrite (proj2 (Z.ltb_ge _ 0)) by lia. rewrite Z.min_l by lia.
  set (len := String.length fn).
  set (lo := Z.to_nat (Z.max 0 (Z.of_nat len + -4))).
  replace (Z.to_nat (Z.of_nat len - Z.max 0 (Z.of_nat len + -4)))
    with (len - lo)%nat by lia.
  split.
  - intros Htail. exists (String.substring 0 lo fn).
    rewrite <- Htail. symmetry. apply substring_split. lia.
  - intros [stem ->]. subst len lo. rewrite length_app. simpl String.length.
    replace (Z.to_nat (Z.max 0 _)) with (String.length stem) by lia.
    rewrite substring_skip.
    by replace (String.length stem + 4 - String.length stem)%nat with 4%nat by lia.
Qed.

End ZipFacts.

(** X14. [zipdir] fails its assertion exactly when [basedir] is no directory.
    Otherwise the members it writes are exactly the files of the walked
    directories whose name does not end in [.zip], each under its joined path;
    a [.zip] file (such as the archive itself when it lies in [basedir]) is
    never packed. *)
Theorem zipdir_members (P : Platform) (isdir : string → bool)
    (walk : string → list (string * list string * list string))
    (archivename basedir : string) :
  (zipdir P isdir walk archivename basedir = None ↔ isdir basedir = false)
  ∧ ∀ members, zipdir P isdir walk archivename basedir = Some members →
      ∀ absfn zfn,
        (absfn, zfn) ∈ members ↔
        ∃ root dirs files fn,
          (root, dirs, files) ∈ walk basedir ∧ fn ∈ files ∧ ¬ zip_name fn ∧
          absfn = path_join P root fn ∧
          zfn = slice_from absfn (Z.of_nat (String.length basedir) + 1).
Proof.
  unfold zipdir. destruct (isdir basedir); split; try done.
  intros members [= <-] absfn zfn.
  rewrite list_elem_of_In, in_flat_map. split.
  - intros ([[root dirs] files] & Hentry & Hin). cbn [fst snd] in Hin.
    unfold zip_files in Hin. apply in_flat_map in Hin as (fn & Hfn & Hin).
    case_decide as Hzip; [done|].
    apply list_elem_of_In, list_elem_of_singleton in Hin as [= -> ->].
    exists root, dirs, files, fn.
    split; [by apply list_elem_of_In|]. split; [by apply list_elem_of_In|].
    split; [by rewrite <- slice_from_zip|]. done.
  - intros (root & dirs & files & fn & Hentry & Hfn & Hzip & -> & ->).
    exists (root, dirs, files). split; [by apply list_elem_of_In|].
    cbn [fst snd]. unfold zip_files. apply in_flat_map. exists fn.
    split; [by apply list_elem_of_In|].
    rewrite decide_False by (by rewrite slice_from_zip).
    apply list_elem_of_In, list_elem_of_singleton. done.
Qed.

Example zipdir_sub :
  ZipExample.pack "sub"
  = Some [("sub/run.py", "run.py");
          ("sub/res/a_test.predict", "res/a_test.predict")].
Proof. vm_compute. reflexivity. Qed.

Example zipdir_sub_slash :
  ZipExample.pack "sub/"
  = Some [("sub/run.py", "un.py");
          ("sub/res/a_test.predict", "es/a_test.predict")].
Proof. vm_compute. reflexivity. Qed.

Example zipdir_not_a_directory : ZipExample.pack "nowhere" = None.
Proof. vm_compute. reflexivity. Qed.

Lemma zipdir_members_witness :
  ("sub/res/a_test.predict", "res/a_test.predict")
  ∈ [("sub/run.py", "run.py"); ("sub/res/a_test.predict", "res/a_test.predict")].
Proof.
  apply (proj2 (zipdir_members (Posix.platform []) ZipExample.isdir ZipExample.walk
                  "sub.zip" "sub") _ eq_refl).
  exists "sub/res", [], ["a_test.predict"], "a_test.predict".
  split; [vm_compute; right; left|]. split; [left|]. split; [|done].
  intros [stem Hstem].
  assert (PyStr.rev "a_test.predict" = PyStr.rev (stem +:+ ".zip")) as Hrev
    by (by rewrite Hstem).
  unfold PyStr.rev in Hrev. rewrite rev_app_distr in Hrev. discriminate.
Defined.

(** X15. The member name is the joined path without its first
    [len(basedir) + 1] characters. For a joined path [basedir/<rel>] this is
    the relative path [<rel>]; for a [basedir] that already ends with the
    separator, where the joined path is [basedir<rel>], the first character
    of [<rel>] is lost. *)
Theorem zipdir_member_names (P : Platform) (isdir : string → bool)
    (walk : string → list (string * list string * list string))
    (archivename basedir : string) (members : list (string * string))
    (c : ascii) (rel zfn : string) :
  zipdir P isdir walk archivename basedir = Some members →
  (basedir +:+ String c rel, zfn) ∈ members →
  zfn = rel.
Proof.
  intros Hzip Hin.
  apply (proj2 (zipdir_members P isdir walk archivename basedir) _ Hzip) in Hin
    as (root & dirs & files & fn & _ & _ & _ & _ & ->).
  replace (basedir +:+ String c rel)
    with ((basedir +:+ String c EmptyString) +:+ rel) by (by rewrite app_assoc_str).
  replace (Z.of_nat (String.length basedir) + 1)
    with (Z.of_nat (String.length (basedir +:+ String c EmptyString)))
    by (rewrite length_app; simpl; lia).
  apply slice_from_app.
Qed.

Lemma zipdir_member_names_witness : "un.py" = "un.py" ∧ "res/a_test.predict" = "res/a_test.predict".
Proof.
  split.
  - apply (zipdir_member_names (Posix.platform []) ZipExample.isdir ZipExample.walk
             "sub.zip" "sub/" _ "r" "un.py" "un.py" eq_refl).
    vm_compute. left.
  - apply (zipdir_member_names (Posix.platform []) ZipExample.isdir ZipExample.walk
             "sub.zip" "sub" _ "/" "res/a_test.predict" "res/a_test.predict" eq_refl).
    vm_compute. right. left.
Defined.
